(** * monday_exporter: board retrieval and workbook rendering

    A shallow embedding of [monday_exporter/models.py], [api.py] and
    [excel.py], and the properties of the pagination protocol, the
    column-value renderer and the workbook builder.

    Python values are modelled by [json] (what [response.json()] and
    [json.loads] return) and [cell_value] (what is written into a
    sheet); a [str] is a [string], its characters the code points below
    256; an [int] is a [Z] and a [float] a binary64 [float].  A call
    returns a [PyResult]: a value or the exception raised.  The HTTP
    session is a script of the outcomes of the coming [Session.post]
    calls, consumed one per call.  Third-party calls (pydantic
    validation, [dateutil], [json.loads], [float], [str] of a float or
    a date, the clock) are the fields of the class [Runtime]; openpyxl
    is modelled by the rows, widths and styles its calls leave in a
    sheet, and by the sheet titles it assigns or refuses. *)

From Stdlib Require Import ZArith Lia Floats Ascii String Uint63.
From stdpp Require Import base option list strings gmap pretty.

Open Scope string_scope.
Open Scope Z_scope.

(** ** Python values *)

(** The values a decoded JSON document is made of.  A Python [dict] is
    an association list in insertion order with distinct keys; a lookup
    takes the first binding of the key. *)
#[warnings="-register-all"] Inductive json :=
| JNull
| JBool (b : bool)
| JInt (n : Z)
| JFloat (f : float)
| JStr (s : string)
| JArr (l : list json)
| JObj (o : list (string * json)).

(** The exceptions that occur in the modelled code.  The three
    [RuntimeError]s the client raises are told apart by their message. *)
Inductive runtime_error :=
| NoBoardFound (board_id : Z)
| ApiReturnedErrors (errors : json)
| RequestFailed (status : Z) (details : json).

Inductive exn :=
| RuntimeError (why : runtime_error)
| ValueError
| TypeError
| AttributeError
| IndexError
| KeyError
| ValidationError
| RequestException
| StopIteration
| OverflowError.

Inductive PyResult (A : Type) :=
| Ok (a : A)
| Raise (e : exn).
Arguments Ok {A} a.
Arguments Raise {A} e.

#[global] Instance PyResult_ret : MRet PyResult := fun A a => Ok a.
#[global] Instance PyResult_bind : MBind PyResult := fun A B f m =>
  match m with
  | Ok a => f a
  | Raise e => Raise e
  end.

#[global] Instance PyResult_fmap : FMap PyResult := fun A B f m =>
  match m with
  | Ok a => Ok (f a)
  | Raise e => Raise e
  end.

(** [isinstance(e, classes)] for the handlers of the code, which name
    [ValueError], [TypeError] and [AttributeError] only. *)
Definition exn_eqb (e1 e2 : exn) : bool :=
  match e1, e2 with
  | ValueError, ValueError | TypeError, TypeError
  | AttributeError, AttributeError | IndexError, IndexError
  | KeyError, KeyError | ValidationError, ValidationError
  | RequestException, RequestException | StopIteration, StopIteration
  | OverflowError, OverflowError => true
  | _, _ => false
  end.

(** [try: body  except classes: handler]. *)
Definition try_except {A} (body : PyResult A) (classes : list exn)
    (handler : PyResult A) : PyResult A :=
  match body with
  | Ok a => Ok a
  | Raise e => if existsb (exn_eqb e) classes then handler else Raise e
  end.

(** Truth value of a Python object ([not x], [x or y], [if x]). *)
Definition truthy (j : json) : bool :=
  match j with
  | JNull => false
  | JBool b => b
  | JInt n => negb (Z.eqb n 0)
  | JFloat f => negb (PrimFloat.eqb f 0%float)
  | JStr s => negb (String.eqb s "")
  | JArr l => match l with [] => false | _ => true end
  | JObj o => match o with [] => false | _ => true end
  end.

(** [x or y]. *)
Definition py_or (x y : json) : json := if truthy x then x else y.

Fixpoint assoc (key : string) (o : list (string * json)) : option json :=
  match o with
  | [] => None
  | (k, v) :: o' => if String.eqb k key then Some v else assoc key o'
  end.

(** [d.get(key, dflt)]; only a [dict] has the method. *)
Definition py_get (d : json) (key : string) (dflt : json) : PyResult json :=
  match d with
  | JObj o => Ok (default dflt (assoc key o))
  | _ => Raise AttributeError
  end.

(** [key in x] for a string [key]: a key of a [dict], an element of a
    [list], a substring of a [str]; other values are not containers. *)
Definition is_str (key : string) (j : json) : bool :=
  match j with
  | JStr s => String.eqb s key
  | _ => false
  end.

Definition py_in (key : string) (x : json) : PyResult bool :=
  match x with
  | JObj o => Ok (bool_decide (is_Some (assoc key o)))
  | JArr l => Ok (existsb (is_str key) l)
  | JStr s => Ok (bool_decide (is_Some (String.index 0 key s)))
  | _ => Raise TypeError
  end.

(** [x[0]]. *)
Definition py_first (x : json) : PyResult json :=
  match x with
  | JArr (j :: _) => Ok j
  | JArr [] => Raise IndexError
  | JStr (String c _) => Ok (JStr (String c ""))
  | JStr "" => Raise IndexError
  | JObj _ => Raise KeyError
  | _ => Raise TypeError
  end.

(** [x[key]] for a string [key]. *)
Definition py_item (x : json) (key : string) : PyResult json :=
  match x with
  | JObj o => match assoc key o with Some v => Ok v | None => Raise KeyError end
  | _ => Raise TypeError
  end.

(** The elements a [for] loop over [x] visits. *)
Definition py_iter (x : json) : PyResult (list json) :=
  match x with
  | JArr l => Ok l
  | JStr s => Ok (map (fun c => JStr (String c "")) (list_ascii_of_string s))
  | JObj o => Ok (map (fun kv => JStr (fst kv)) o)
  | _ => Raise TypeError
  end.

(** [{**d, key: v}]: [key] is rebound in place when [d] has it, added
    last otherwise. *)
Fixpoint dict_set (key : string) (v : json) (o : list (string * json))
    : list (string * json) :=
  match o with
  | [] => [(key, v)]
  | (k, x) :: o' =>
      if String.eqb k key then (k, v) :: o' else (k, x) :: dict_set key v o'
  end.

Definition py_spread_with (d : json) (key : string) (v : json) : PyResult json :=
  match d with
  | JObj o => Ok (JObj (dict_set key v o))
  | _ => Raise TypeError
  end.

(** ** models.py *)

Record datetime := {
  year : Z; month : Z; day : Z;
  hour : Z; minute : Z; second : Z; microsecond : Z;
  utcoffset : option Z
}.

Module BoardColumn.
Record t := { id : string; title : string; type : string }.
End BoardColumn.

Module ColumnValue.
Record t := {
  id : string;
  text : string;
  title : string;
  type : string;
  value : option string
}.
End ColumnValue.

Module Group.
Record t := {
  id : string;
  title : string;
  color : option string;
  position : option string
}.
End Group.

Module Person.
Record t := { id : option Z; name : option string }.
End Person.

Module Item.
#[warnings="-register-all"] Inductive t := Build {
  id : string;
  name : string;
  group : option Group.t;
  creator : option Person.t;
  created_at : option datetime;
  updated_at : option datetime;
  column_values : list ColumnValue.t;
  subitems : option (list t)
}.

(** [Item.column_value_by_id]: the first column value with that id. *)
Definition column_value_by_id (item : t) (column_id : string)
    : option ColumnValue.t :=
  find (fun cv => String.eqb (ColumnValue.id cv) column_id) (column_values item).
End Item.

Module Board.
Record t := {
  id : string;
  name : string;
  description : option string;
  state : option string;
  columns : list BoardColumn.t;
  groups : list Group.t;
  items : list Item.t
}.

Definition ordered_columns (board : t) : list BoardColumn.t := columns board.

(** [board.model_copy(update={"items": items})]. *)
Definition with_items (board : t) (its : list Item.t) : t :=
  {| id := id board; name := name board; description := description board;
     state := state board; columns := columns board; groups := groups board;
     items := its |}.
End Board.

(** ** Third-party calls

    What each library call returns or raises is an input of the model. *)
Class Runtime := {
  (** [json.loads(s)] *)
  json_loads : string -> PyResult json;
  (** [dateutil.parser.isoparse(x)] *)
  isoparse : json -> PyResult datetime;
  (** [dateutil.parser.parse(s)] *)
  date_parse : string -> PyResult datetime;
  (** [float(s)], [str(f)] and [str(d)] *)
  float_of_str : string -> PyResult float;
  str_of_float : float -> string;
  str_of_datetime : datetime -> string;
  (** [Item.model_validate(payload)], [Board.model_validate(payload)] *)
  Item_model_validate : json -> PyResult Item.t;
  Board_model_validate : json -> PyResult Board.t;
  (** [datetime.now(timezone.utc)] at the time the workbook is built *)
  utc_now : datetime
}.

(** ** api.py *)

Inductive Query := BOARD_METADATA_QUERY | ITEMS_PAGE_QUERY.

(** The JSON body [{query, variables}] handed to [Session.post]. *)
Record Request := { query : Query; variables : json }.

(** What the client reads of a [requests.Response]: the status, the
    decoded body ([None] when the body is not JSON, so that
    [response.json()] raises a [ValueError]) and the raw text. *)
Record Response := {
  status_code : Z;
  json_body : option json;
  body_text : string
}.

(** [logger.warning("No items retrieved for board %s", board_id)]. *)
Inductive Warning := NoItemsRetrieved (board_id : Z).

(** The session: the outcomes of the coming [post] calls, in order, and
    the requests sent and warnings logged so far.  A [post] beyond the
    script raises [StopIteration], as an exhausted mock does. *)
Record World := {
  pending : list (PyResult Response);
  sent : list Request;
  warnings : list Warning
}.

Record Settings := { page_size : Z }.

(** [response.json()]. *)
Definition Response_json (response : Response) : PyResult json :=
  match json_body response with
  | Some j => Ok j
  | None => Raise ValueError
  end.

(** [_raise_for_status]: [raise_for_status()] raises an [HTTPError] for
    a 4xx or 5xx status, which is turned into a [RuntimeError] that
    carries the decoded body, or the text when the body is not JSON. *)
Definition _raise_for_status (response : Response) : PyResult unit :=
  if (400 <=? status_code response) && (status_code response <? 600) then
    details ← try_except (Response_json response) [ValueError]
                 (Ok (JObj [("text", JStr (body_text response))]));
    Raise (RuntimeError (RequestFailed (status_code response) details))
  else Ok tt.

(** [execute], from the outcome of [self._session.post(...)] on. *)
Definition execute_outcome (outcome : PyResult Response) : PyResult json :=
  response ← outcome;
  _ ← _raise_for_status response;
  data ← Response_json response;
  has_errors ← py_in "errors" data;
  if (has_errors : bool) then
    errors ← py_item data "errors";
    Raise (RuntimeError (ApiReturnedErrors errors))
  else py_get data "data" (JObj []).

(** [execute(query, variables)]: one [post], then its outcome decoded. *)
Definition execute (q : Query) (vars : json) (w : World) : PyResult json * World :=
  let request := {| query := q; variables := py_or vars (JObj []) |} in
  match pending w with
  | [] =>
      (Raise StopIteration,
       {| pending := []; sent := sent w ++ [request]; warnings := warnings w |})
  | outcome :: rest =>
      (execute_outcome outcome,
       {| pending := rest; sent := sent w ++ [request]; warnings := warnings w |})
  end.

Section Client.
Context `{R : Runtime}.
Variable settings : Settings.

(** The variables of the two queries. *)
Definition metadata_variables (board_id : Z) : json :=
  JObj [("board_id", JArr [JInt board_id])].

Definition items_variables (board_id : Z) (cursor : json)
    (include_subitems : bool) : json :=
  JObj [("board_id", JInt board_id);
        ("limit", JInt (page_size settings));
        ("cursor", cursor);
        ("include_subitems", JBool include_subitems)].

(** [fetch_board], lines 158-162: the board model of the metadata. *)
Definition read_metadata (board_id : Z) (metadata : json) : PyResult Board.t :=
  boards ← py_get metadata "boards" (JArr []);
  if negb (truthy boards) then Raise (RuntimeError (NoBoardFound board_id))
  else
    first ← py_first boards;
    payload ← py_spread_with first "items" (JArr []);
    Board_model_validate payload.

(** [for item_payload in page_items: items.append(Item.model_validate(item_payload))] *)
Fixpoint validate_items (payloads : list json) : PyResult (list Item.t) :=
  match payloads with
  | [] => Ok []
  | payload :: rest =>
      item ← Item_model_validate payload;
      items ← validate_items rest;
      Ok (item :: items)
  end.

(** How one turn of the [while True] loop ends. *)
Inductive Turn :=
| Break (items : list Item.t)
| Continue (cursor : json) (items : list Item.t).

(** [fetch_board], lines 178-190: one turn of the loop on the page that
    [execute] returned. *)
Definition read_page (page : json) (items : list Item.t) : PyResult Turn :=
  boards_payload ← py_get page "boards" (JArr []);
  if negb (truthy boards_payload) then Ok (Break items)
  else
    first ← py_first boards_payload;
    page_info ← py_get first "items_page" (JObj []);
    listed ← py_get page_info "items" (JArr []);
    page_items ← py_iter (py_or listed (JArr []));
    validated ← validate_items page_items;
    cursor ← py_get page_info "cursor" JNull;
    if negb (truthy cursor) then Ok (Break (items ++ validated))
    else Ok (Continue cursor (items ++ validated)).

(** The [while True] loop.  Every turn posts one request, so the loop
    is written by recursion on the script of pending outcomes;
    [items_loop_turn] below shows that a turn is one [execute]. *)
Fixpoint fetch_items (board_id : Z) (include_subitems : bool)
    (script : list (PyResult Response)) (requests : list Request)
    (logged : list Warning) (cursor : json) (items : list Item.t)
    : PyResult (list Item.t) * World :=
  let request :=
    {| query := ITEMS_PAGE_QUERY;
       variables := py_or (items_variables board_id cursor include_subitems) (JObj []) |} in
  match script with
  | [] =>
      (Raise StopIteration,
       {| pending := []; sent := requests ++ [request]; warnings := logged |})
  | outcome :: rest =>
      let w := {| pending := rest; sent := requests ++ [request]; warnings := logged |} in
      match page ← execute_outcome outcome; read_page page items with
      | Raise e => (Raise e, w)
      | Ok (Break items') => (Ok items', w)
      | Ok (Continue cursor' items') =>
          fetch_items board_id include_subitems rest (requests ++ [request])
            logged cursor' items'
      end
  end.

Definition items_loop (board_id : Z) (include_subitems : bool)
    (cursor : json) (items : list Item.t) (w : World)
    : PyResult (list Item.t) * World :=
  fetch_items board_id include_subitems (pending w) (sent w) (warnings w)
    cursor items.

Definition log_warning (msg : Warning) (w : World) : World :=
  {| pending := pending w; sent := sent w; warnings := warnings w ++ [msg] |}.

(** [MondayClient.fetch_board]. *)
Definition fetch_board (board_id : Z) (include_subitems : bool) (w : World)
    : PyResult Board.t * World :=
  match execute BOARD_METADATA_QUERY (metadata_variables board_id) w with
  | (Raise e, w1) => (Raise e, w1)
  | (Ok metadata, w1) =>
      match read_metadata board_id metadata with
      | Raise e => (Raise e, w1)
      | Ok board_model =>
          match items_loop board_id include_subitems JNull [] w1 with
          | (Raise e, w2) => (Raise e, w2)
          | (Ok items, w2) =>
              let w3 :=
                match items with
                | [] => log_warning (NoItemsRetrieved board_id) w2
                | _ => w2
                end in
              (Ok (Board.with_items board_model items), w3)
          end
      end
  end.

End Client.

(** ** Strings and regular expressions *)

(** [len(s)]. *)
Definition len (s : string) : Z := Z.of_nat (String.length s).

(** [s[:n]]. *)
Fixpoint str_take (n : nat) (s : string) : string :=
  match n, s with
  | S n', String c s' => String c (str_take n' s')
  | _, _ => ""
  end.

Fixpoint replace_scan (old new : string) (skip : nat) (s : string) : string :=
  match s with
  | "" => ""
  | String c s' =>
      match skip with
      | S k => replace_scan old new k s'
      | O =>
          if String.prefix old s
          then new ++ replace_scan old new (String.length old - 1) s'
          else String c (replace_scan old new 0 s')
      end
  end.

(** [s.replace(old, new)]: every occurrence of [old], leftmost first and
    not overlapping; an empty [old] matches before each character and
    at the end. *)
Definition str_replace (old new s : string) : string :=
  match old with
  | "" => new ++ String.concat "" (map (fun c => String c new) (list_ascii_of_string s))
  | _ => replace_scan old new 0 s
  end.

(** [a or b] on strings. *)
Definition str_or (a b : string) : string :=
  match a with
  | "" => b
  | _ => a
  end.

(** The line boundaries of [str.splitlines] among the code points below
    256. *)
Definition is_line_boundary (c : ascii) : bool :=
  let n := nat_of_ascii c in
  match n with
  | 10 | 11 | 12 | 13 | 28 | 29 | 30 | 133 => true
  | _ => false
  end%nat.

(** [s.splitlines()]; [line] holds the characters of the line being read.
    A carriage return followed by a line feed is one boundary. *)
Fixpoint splitlines_from (line : string) (s : string) : list string :=
  match s with
  | "" => match line with "" => [] | _ => [line] end
  | String c s' =>
      if is_line_boundary c then
        match s' with
        | String c' s'' =>
            if Ascii.eqb c "013" && Ascii.eqb c' "010"
            then line :: splitlines_from "" s''
            else line :: splitlines_from "" s'
        | "" => [line]
        end
      else splitlines_from (line ++ String c "") s'
  end.

Definition splitlines (s : string) : list string := splitlines_from "" s.

(** A compiled pattern of the fragment of [re] the exporter uses: a
    sequence of items that each match one character. *)
Inductive re_item :=
| Literal (c : ascii)
| In (members : list ascii).

Definition is_alnum (c : ascii) : bool :=
  let n := nat_of_ascii c in
  ((48 <=? n) && (n <=? 57) || (65 <=? n) && (n <=? 90)
   || (97 <=? n) && (n <=? 122))%nat.

Definition is_special (c : ascii) : bool :=
  existsb (Ascii.eqb c) (list_ascii_of_string ".^$*+?{}()|").

(** [re.compile]: the parser of [sre_parse] on that fragment.  [set] is
    [Some members] inside a character set.  A backslash escapes the
    character after it; inside a set a closing bracket ends the set as
    soon as the set has a member, and every other unescaped character is
    a member; outside a set a closing bracket is an ordinary character.
    Ranges, negated sets, class escapes and repetition are outside the
    fragment ([None]). *)
Fixpoint re_parse (set : option (list ascii)) (pattern : string)
    : option (list re_item) :=
  match pattern with
  | "" => match set with None => Some [] | Some _ => None end
  | String c rest =>
      match set with
      | None =>
          if Ascii.eqb c "[" then re_parse (Some []) rest
          else if Ascii.eqb c "\" then
            match rest with
            | String e rest' =>
                if is_alnum e then None
                else cons (Literal e) <$> re_parse None rest'
            | "" => None
            end
          else if is_special c then None
          else cons (Literal c) <$> re_parse None rest
      | Some members =>
          if Ascii.eqb c "]" && negb (bool_decide (members = [])) then
            cons (In members) <$> re_parse None rest
          else if Ascii.eqb c "\" then
            match rest with
            | String e rest' =>
                if is_alnum e then None
                else re_parse (Some (members ++ [e])%list) rest'
            | "" => None
            end
          else if Ascii.eqb c "-" || Ascii.eqb c "^" && bool_decide (members = [])
          then None
          else re_parse (Some (members ++ [c])%list) rest
      end
  end.

Definition re_compile (pattern : string) : option (list re_item) :=
  re_parse None pattern.

Definition item_matches (i : re_item) (c : ascii) : bool :=
  match i with
  | Literal c' => Ascii.eqb c c'
  | In members => existsb (Ascii.eqb c) members
  end.

(** Does the pattern match at the start of [s]? *)
Fixpoint re_match (pattern : list re_item) (s : string) : bool :=
  match pattern, s with
  | [], _ => true
  | i :: pattern', String c s' => item_matches i c && re_match pattern' s'
  | _ :: _, "" => false
  end.

(** [re.sub(pattern, repl, s)] for a pattern of one item or more: the
    matches are found left to right and do not overlap. *)
Fixpoint re_sub_scan (pattern : list re_item) (repl : string) (skip : nat)
    (s : string) : string :=
  match s with
  | "" => ""
  | String c s' =>
      match skip with
      | S k => re_sub_scan pattern repl k s'
      | O =>
          if re_match pattern s
          then repl ++ re_sub_scan pattern repl (length pattern - 1) s'
          else String c (re_sub_scan pattern repl 0 s')
      end
  end.

Definition re_sub (pattern : list re_item) (repl s : string) : string :=
  re_sub_scan pattern repl 0 s.

(** ** excel.py *)

(** The values written into cells. *)
Inductive cell_value :=
| VNone
| VStr (s : string)
| VInt (n : Z)
| VFloat (f : float)
| VBool (b : bool)
| VDate (d : datetime).

Definition DATE_NUMBER_FORMAT : string := "yyyy-mm-dd hh:mm".

Inductive Fill := NO_FILL | HEADER_FILL | ALTERNATING_FILL.
Inductive Alignment := NO_ALIGNMENT | HEADER_ALIGNMENT | TEXT_ALIGNMENT.

Record Cell := {
  value : cell_value;
  number_format : string;
  fill : Fill;
  alignment : Alignment;
  header_font : bool;
  thin_border : bool
}.

(** A cell as [sheet.append] creates it. *)
Definition plain_cell (v : cell_value) : Cell :=
  {| value := v; number_format := "General"; fill := NO_FILL;
     alignment := NO_ALIGNMENT; header_font := false; thin_border := false |}.

Definition _apply_header_style (cell : Cell) : Cell :=
  {| value := value cell; number_format := number_format cell;
     fill := HEADER_FILL; alignment := HEADER_ALIGNMENT;
     header_font := true; thin_border := true |}.

(** A worksheet: its rows from row 1 on, and the widths set in
    [column_dimensions], keyed by the 1-based index that
    [get_column_letter] turns into a letter.  [auto_filter] holds the
    numbers of rows and columns of [sheet.dimensions]. *)
Record Sheet := {
  title : string;
  rows : list (list Cell);
  freeze_panes : option string;
  column_widths : gmap nat Z;
  auto_filter : option (nat * nat)
}.

Record Workbook := {
  items_sheet : Sheet;
  summary_sheet : Sheet
}.

Definition max_row (sheet : Sheet) : nat := length (rows sheet).

Definition dimensions (sheet : Sheet) : nat * nat :=
  (length (rows sheet), foldr (fun row n => Nat.max (length row) n) O (rows sheet)).

(** The pattern of [_sanitize_sheet_title], as written in the source,
    and what [re] compiles it to. *)
Definition sheet_title_pattern : string := "[\\/*?:\\[\\]]".

Definition sheet_title_re : list re_item :=
  Eval vm_compute in default [] (re_compile sheet_title_pattern).

Definition _sanitize_sheet_title (title : string) : string :=
  let title := re_sub sheet_title_re "_" title in
  str_take 31 title.

(** [_sanitize_sheet_title(board.name) or "Board"]. *)
Definition items_sheet_title (board : Board.t) : string :=
  match _sanitize_sheet_title (Board.name board) with
  | "" => "Board"
  | title => title
  end.

(** Titles in openpyxl.  Assigning a title to a sheet raises a
    [ValueError] when the title is empty or holds one of the characters
    [\ * ? : / [ ]]; a title that differs from the one the sheet has and
    equals, case apart, the name of a sheet of the workbook gets a
    number appended.  At both assignments of the exporter the workbook
    holds one sheet, and the number is 1. *)
Definition INVALID_TITLE_CHARS : list ascii :=
  ["\"; "*"; "?"; ":"; "/"; "["; "]"]%char.

Definition has_invalid_title_char (s : string) : bool :=
  existsb (fun c => existsb (Ascii.eqb c) INVALID_TITLE_CHARS)
    (list_ascii_of_string s).

(** [str.lower] on the code points below 256. *)
Definition lower_char (c : ascii) : ascii :=
  let n := nat_of_ascii c in
  if ((65 <=? n) && (n <=? 90) || (192 <=? n) && (n <=? 214)
      || (216 <=? n) && (n <=? 222))%nat
  then ascii_of_nat (n + 32)
  else c.

Fixpoint lower (s : string) : string :=
  match s with
  | "" => ""
  | String c s' => String (lower_char c) (lower s')
  end.

(** [avoid_duplicate_name([name], value)]. *)
Definition avoid_duplicate_name (name value : string) : string :=
  if String.eqb (lower name) (lower value) then value +:+ "1" else value.

(** [sheet.title = value] on a sheet titled [current], in a workbook
    whose one sheet is named [name]. *)
Definition set_title (current name value : string) : PyResult string :=
  if String.eqb value "" then Raise ValueError
  else if has_invalid_title_char value then Raise ValueError
  else Ok (if String.eqb current value then value
           else avoid_duplicate_name name value).

Definition with_title (new_title : string) (sheet : Sheet) : Sheet :=
  {| title := new_title; rows := rows sheet;
     freeze_panes := freeze_panes sheet;
     column_widths := column_widths sheet;
     auto_filter := auto_filter sheet |}.

Section Exporter.
Context `{R : Runtime}.

(** [ColumnValue.parsed_value]. *)
Definition parsed_value (cv : ColumnValue.t) : PyResult json :=
  match ColumnValue.value cv with
  | None | Some "" => Ok (JStr (ColumnValue.text cv))
  | Some raw =>
      try_except (json_loads raw) [ValueError; TypeError]
        (Ok (JStr (ColumnValue.text cv)))
  end.

(** The text branch of [_parse_date]. *)
Definition parse_date_text (column_value : ColumnValue.t)
    : PyResult (option datetime) :=
  match ColumnValue.text column_value with
  | "" => Ok None
  | text =>
      try_except (Some <$> date_parse text) [ValueError; TypeError] (Ok None)
  end.

Definition _parse_date (column_value : ColumnValue.t)
    : PyResult (option datetime) :=
  value ← parsed_value column_value;
  match value with
  | JObj o =>
      let date_part := default JNull (assoc "date" o) in
      if truthy date_part then
        try_except (Some <$> isoparse date_part) [ValueError; TypeError] (Ok None)
      else parse_date_text column_value
  | _ => parse_date_text column_value
  end.

Definition _render_column_value (column : BoardColumn.t)
    (column_value : option ColumnValue.t)
    : PyResult (cell_value * option string) :=
  match column_value with
  | None => Ok (VStr "", None)
  | Some column_value =>
      let type := BoardColumn.type column in
      let text := ColumnValue.text column_value in
      if String.eqb type "date" then
        parsed_date ← _parse_date column_value;
        match parsed_date with
        | Some d => Ok (VDate d, Some "date")
        | None => Ok (VStr text, None)
        end
      else if String.eqb type "numbers" || String.eqb type "numeric" then
        try_except
          (f ← float_of_str (str_replace "," "" text); Ok (VFloat f, None))
          [ValueError; AttributeError]
          (Ok (VStr text, None))
      else if String.eqb type "checkbox" then
        value ← parsed_value column_value;
        let value :=
          match value with
          | JObj o => default JNull (assoc "checked" o)
          | _ => value
          end in
        match value with
        | JBool b => Ok (VBool b, None)
        | _ => Ok (VStr (str_or text ""), None)
        end
      else if String.eqb type "people" then
        Ok (VStr (str_replace (String "010" "") ", " text), None)
      else Ok (VStr text, None)
  end.

(** [str(value)]. *)
Definition py_str (v : cell_value) : string :=
  match v with
  | VNone => "None"
  | VStr s => s
  | VInt n => pretty n
  | VFloat f => str_of_float f
  | VBool true => "True"
  | VBool false => "False"
  | VDate d => str_of_datetime d
  end.

Definition _calculate_display_width (v : cell_value) : Z :=
  match v with
  | VNone => 0
  | VDate _ => 22
  | _ =>
      let text := py_str v in
      let lines := splitlines text in
      let max_length := foldr (fun line m => Z.max (len line) m) 0 lines in
      max_length + 2
  end.

(** [a or ""] for the optional fields of an item. *)
Definition str_or_empty (s : option string) : string := default "" s.

Definition date_or_empty (d : option datetime) : cell_value :=
  match d with
  | Some d => VDate d
  | None => VStr ""
  end.

(** The loop over the board columns in [_build_item_row]. *)
Fixpoint render_columns (item : Item.t) (columns : list BoardColumn.t)
    (row : list cell_value) (column_formats : gmap nat string)
    : PyResult (list cell_value * gmap nat string) :=
  match columns with
  | [] => Ok (row, column_formats)
  | column :: columns' =>
      let column_value := Item.column_value_by_id item (BoardColumn.id column) in
      rendered ← _render_column_value column column_value;
      let column_formats :=
        match snd rendered with
        | Some format_tag =>
            if String.eqb format_tag "" then column_formats
            else <[length row := format_tag]> column_formats
        | None => column_formats
        end in
      render_columns item columns' (row ++ [fst rendered]) column_formats
  end.

Definition _build_item_row (item : Item.t) (columns : list BoardColumn.t)
    : PyResult (list cell_value * gmap nat string) :=
  let group := Item.group item in
  let creator := Item.creator item in
  let row :=
    [ VStr (Item.id item);
      VStr (Item.name item);
      VStr (default "" (Group.title <$> group));
      VStr (str_or_empty (group ≫= Group.color));
      VStr (str_or_empty (creator ≫= Person.name));
      date_or_empty (Item.created_at item);
      date_or_empty (Item.updated_at item) ] in
  let column_formats : gmap nat string := ∅ in
  let column_formats :=
    match Item.created_at item with
    | Some _ => <[5%nat := "date"]> column_formats
    | None => column_formats
    end in
  let column_formats :=
    match Item.updated_at item with
    | Some _ => <[6%nat := "date"]> column_formats
    | None => column_formats
    end in
  render_columns item columns row column_formats.

(** The width of a column that has no dimension yet (openpyxl's
    default). *)
Definition DEFAULT_COLUMN_WIDTH : Z := 13.

(** [sheet.column_dimensions[letter].width or 10]. *)
Definition previous_width (widths : gmap nat Z) (letter : nat) : Z :=
  let width := default DEFAULT_COLUMN_WIDTH (widths !! letter) in
  if Z.eqb width 0 then 10 else width.

(** Lines 104-108: the width of the column of cell [idx] after the cell
    is measured. *)
Definition fit_column (idx : nat) (v : cell_value) (widths : gmap nat Z)
    : gmap nat Z :=
  let display_length := _calculate_display_width v in
  let column_letter := S idx in
  if display_length >? previous_width widths column_letter
  then <[column_letter := Z.min display_length 48]> widths
  else widths.

(** Lines 95-102: the style of cell [idx] of a data row. *)
Definition style_cell (column_formats : gmap nat string) (is_alternate : bool)
    (idx : nat) (cell : Cell) : Cell :=
  {| value := value cell;
     number_format :=
       if bool_decide (column_formats !! idx = Some "date")
       then DATE_NUMBER_FORMAT else number_format cell;
     fill := if is_alternate then ALTERNATING_FILL else fill cell;
     alignment := TEXT_ALIGNMENT;
     header_font := header_font cell;
     thin_border := true |}.

(** The loop of lines 94-108 over the cells of one row, from cell [idx]
    on. *)
Fixpoint fit_columns (idx : nat) (cells : list Cell) (widths : gmap nat Z)
    : gmap nat Z :=
  match cells with
  | [] => widths
  | cell :: cells' => fit_columns (S idx) cells' (fit_column idx (value cell) widths)
  end.

(** Lines 81-84: the header row styled and the initial widths. *)
Fixpoint header_widths (idx : nat) (cells : list Cell) (widths : gmap nat Z)
    : gmap nat Z :=
  match cells with
  | [] => widths
  | cell :: cells' =>
      let text := match value cell with VStr s => s | _ => "" end in
      header_widths (S idx) cells' (<[idx := Z.max (len text) 12]> widths)
  end.

Definition FIXED_HEADERS : list string :=
  ["Item ID"; "Item Name"; "Group"; "Group Color"; "Creator";
   "Created At"; "Updated At"].

Definition headers (columns : list BoardColumn.t) : list string :=
  (FIXED_HEADERS ++ map BoardColumn.title columns)%list.

(** Lines 86-108: one item appended to the sheet. *)
Definition append_item (columns : list BoardColumn.t) (sheet : Sheet)
    (item : Item.t) : PyResult Sheet :=
  built ← _build_item_row item columns;
  let row_values := fst built in
  let column_formats := snd built in
  let row_index := S (max_row sheet) in
  let is_alternate := Nat.even row_index in
  let row_cells := imap (style_cell column_formats is_alternate)
                     (map plain_cell row_values) in
  Ok {| title := title sheet;
        rows := (rows sheet ++ [row_cells])%list;
        freeze_panes := freeze_panes sheet;
        column_widths := fit_columns 0 row_cells (column_widths sheet);
        auto_filter := auto_filter sheet |}.

Fixpoint append_items (columns : list BoardColumn.t) (sheet : Sheet)
    (items : list Item.t) : PyResult Sheet :=
  match items with
  | [] => Ok sheet
  | item :: items' =>
      sheet' ← append_item columns sheet item;
      append_items columns sheet' items'
  end.

Definition with_auto_filter (sheet : Sheet) : Sheet :=
  {| title := title sheet; rows := rows sheet;
     freeze_panes := freeze_panes sheet;
     column_widths := column_widths sheet;
     auto_filter := Some (dimensions sheet) |}.

(** The items sheet once the header row is written (lines 66-84). *)
Definition items_sheet_header (sheet_title : string) (board : Board.t) : Sheet :=
  let columns := Board.ordered_columns board in
  let header_row := map (fun h => plain_cell (VStr h)) (headers columns) in
  {| title := sheet_title;
     rows := [map _apply_header_style header_row];
     freeze_panes := Some "A2";
     column_widths := header_widths 1 header_row ∅;
     auto_filter := None |}.

Definition _populate_items_sheet (sheet_title : string) (board : Board.t)
    : PyResult Sheet :=
  sheet ← append_items (Board.ordered_columns board)
            (items_sheet_header sheet_title board) (Board.items board);
  Ok (with_auto_filter sheet).

(** Lines 126-133: the style of a row of the summary below the header. *)
Definition style_summary_row (row : list Cell) : list Cell :=
  match row with
  | [key_cell; value_cell] =>
      [ {| value := value key_cell; number_format := number_format key_cell;
           fill := fill key_cell; alignment := alignment key_cell;
           header_font := header_font key_cell; thin_border := true |};
        {| value := value value_cell;
           number_format :=
             match value value_cell with
             | VDate _ => DATE_NUMBER_FORMAT
             | _ => number_format value_cell
             end;
           fill := fill value_cell; alignment := TEXT_ALIGNMENT;
           header_font := header_font value_cell; thin_border := true |} ]
  | _ => row
  end.

Definition summary_rows (board : Board.t) : list (list cell_value) :=
  ([ [VStr "Property"; VStr "Value"];
     [VStr "Board Name"; VStr (Board.name board)];
     [VStr "Board ID"; VStr (Board.id board)];
     [VStr "Item Count"; VInt (Z.of_nat (length (Board.items board)))];
     [VStr "Group Count"; VInt (Z.of_nat (length (Board.groups board)))];
     [VStr "Column Count"; VInt (Z.of_nat (length (Board.columns board)))] ]
   ++ match Board.description board with
      | None | Some "" => []
      | Some description => [[VStr "Description"; VStr description]]
      end
   ++ [ [VStr "Exported At"; VDate utc_now] ])%list.

Definition _populate_summary_sheet (board : Board.t) : Sheet :=
  let appended := map (map plain_cell) (summary_rows board) in
  let styled :=
    match appended with
    | header :: body => map _apply_header_style header :: map style_summary_row body
    | [] => []
    end in
  let sheet :=
    {| title := "Summary"; rows := styled; freeze_panes := None;
       column_widths := <[2%nat := 60]> (<[1%nat := 18]> ∅);
       auto_filter := None |} in
  with_auto_filter sheet.

(** [ExcelExporter.build_workbook].  The active sheet of a new
    workbook is titled [Sheet]; the summary sheet is created, with its
    title, before either sheet is filled. *)
Definition build_workbook (board : Board.t) : PyResult Workbook :=
  items_title ← set_title "Sheet" "Sheet" (items_sheet_title board);
  summary_title ← set_title "" items_title "Summary";
  items ← _populate_items_sheet items_title board;
  Ok {| items_sheet := items;
        summary_sheet := with_title summary_title (_populate_summary_sheet board) |}.

(** The value next to [label] on the summary sheet. *)
Definition summary_value (label : string) (sheet : Sheet) : option cell_value :=
  match find (fun row =>
                match row with
                | key_cell :: _ =>
                    match value key_cell with
                    | VStr s => String.eqb s label
                    | _ => false
                    end
                | [] => false
                end) (rows sheet) with
  | Some [_; value_cell] => Some (value value_cell)
  | _ => None
  end.

End Exporter.

(** ** A runtime for the worked examples

    It decodes JSON documents without escapes or fractions, reads dates
    written [YYYY-MM-DD] and decimal literals of at most fifteen digits,
    and validates the fields of a payload that the examples use.  It
    raises a [ValueError] on every other string, but for a number of ten
    digits beyond the largest C [int], on which [parse] overflows. *)
Module Example.

Inductive token :=
| TLBrace | TRBrace | TLBracket | TRBracket | TColon | TComma
| TString (s : string)
| TWord (s : string).

Definition is_space (c : ascii) : bool :=
  existsb (Ascii.eqb c) [" "; "009"; "010"; "013"]%char.

Definition is_digit (c : ascii) : bool :=
  let n := nat_of_ascii c in ((48 <=? n) && (n <=? 57))%nat.

Definition punctuation (c : ascii) : option token :=
  if Ascii.eqb c "{" then Some TLBrace
  else if Ascii.eqb c "}" then Some TRBrace
  else if Ascii.eqb c "[" then Some TLBracket
  else if Ascii.eqb c "]" then Some TRBracket
  else if Ascii.eqb c ":" then Some TColon
  else if Ascii.eqb c "," then Some TComma
  else None.

Inductive lexing := Between | InString (read : string) | InWord (read : string).

Fixpoint lex (st : lexing) (s : string) : option (list token) :=
  match s with
  | "" =>
      match st with
      | Between => Some []
      | InWord w => Some [TWord w]
      | InString _ => None
      end
  | String c s' =>
      match st with
      | InString read =>
          if Ascii.eqb c "034" then cons (TString read) <$> lex Between s'
          else if Ascii.eqb c "\" then None
          else lex (InString (read ++ String c "")) s'
      | InWord w =>
          if is_space c then cons (TWord w) <$> lex Between s'
          else match punctuation c with
               | Some t => (fun ts => TWord w :: t :: ts) <$> lex Between s'
               | None => if Ascii.eqb c "034" then None
                         else lex (InWord (w ++ String c "")) s'
               end
      | Between =>
          if is_space c then lex Between s'
          else if Ascii.eqb c "034" then lex (InString "") s'
          else match punctuation c with
               | Some t => cons t <$> lex Between s'
               | None => lex (InWord (String c "")) s'
               end
      end
  end.

Fixpoint digits_value (acc : Z) (s : string) : option Z :=
  match s with
  | "" => Some acc
  | String c s' =>
      if is_digit c
      then digits_value (10 * acc + Z.of_nat (nat_of_ascii c - 48)) s'
      else None
  end.

Definition natural (s : string) : option Z :=
  match s with
  | "" => None
  | _ => digits_value 0 s
  end.

Definition word_value (w : string) : option json :=
  if String.eqb w "null" then Some JNull
  else if String.eqb w "true" then Some (JBool true)
  else if String.eqb w "false" then Some (JBool false)
  else match w with
       | String "-" digits => (fun n => JInt (- n)) <$> natural digits
       | _ => JInt <$> natural w
       end.

(** A value, then the elements of an array after its first value or
    the members of an object after its first member. *)
Fixpoint parse_value (fuel : nat) (ts : list token) : option (json * list token) :=
  match fuel with
  | O => None
  | S fuel' =>
      match ts with
      | TString s :: ts' => Some (JStr s, ts')
      | TWord w :: ts' => (fun j => (j, ts')) <$> word_value w
      | TLBracket :: TRBracket :: ts' => Some (JArr [], ts')
      | TLBracket :: ts' =>
          '(j, ts1) ← parse_value fuel' ts';
          '(l, ts2) ← parse_elements fuel' ts1;
          Some (JArr (j :: l), ts2)
      | TLBrace :: TRBrace :: ts' => Some (JObj [], ts')
      | TLBrace :: TString k :: TColon :: ts' =>
          '(j, ts1) ← parse_value fuel' ts';
          '(o, ts2) ← parse_members fuel' [(k, j)] ts1;
          Some (JObj o, ts2)
      | _ => None
      end
  end
with parse_elements (fuel : nat) (ts : list token) : option (list json * list token) :=
  match fuel with
  | O => None
  | S fuel' =>
      match ts with
      | TRBracket :: ts' => Some ([], ts')
      | TComma :: ts' =>
          '(j, ts1) ← parse_value fuel' ts';
          '(l, ts2) ← parse_elements fuel' ts1;
          Some (j :: l, ts2)
      | _ => None
      end
  end
with parse_members (fuel : nat) (o : list (string * json)) (ts : list token)
    : option (list (string * json) * list token) :=
  match fuel with
  | O => None
  | S fuel' =>
      match ts with
      | TRBrace :: ts' => Some (o, ts')
      | TComma :: TString k :: TColon :: ts' =>
          '(j, ts1) ← parse_value fuel' ts';
          parse_members fuel' (dict_set k j o) ts1
      | _ => None
      end
  end.

Definition loads (s : string) : PyResult json :=
  match lex Between s with
  | Some ts =>
      match parse_value (S (length ts)) ts with
      | Some (j, []) => Ok j
      | _ => Raise ValueError
      end
  | None => Raise ValueError
  end.

Definition is_leap (y : Z) : bool :=
  (y mod 4 =? 0) && (negb (y mod 100 =? 0) || (y mod 400 =? 0)).

Definition days_in_month (y m : Z) : Z :=
  if m =? 2 then (if is_leap y then 29 else 28)
  else if (m =? 4) || (m =? 6) || (m =? 9) || (m =? 11) then 30
  else 31.

Definition midnight (y m d : Z) : datetime :=
  {| year := y; month := m; day := d; hour := 0; minute := 0; second := 0;
     microsecond := 0; utcoffset := None |}.

(** A date written [YYYY-MM-DD]. *)
Definition read_date (s : string) : PyResult datetime :=
  match s with
  | String y1 (String y2 (String y3 (String y4 (String "-"
      (String m1 (String m2 (String "-" (String d1 (String d2 "")))))))))  =>
      match natural (String y1 (String y2 (String y3 (String y4 "")))),
            natural (String m1 (String m2 "")),
            natural (String d1 (String d2 "")) with
      | Some y, Some m, Some d =>
          if (1 <=? y) && (1 <=? m) && (m <=? 12) && (1 <=? d)
             && (d <=? days_in_month y m)
          then Ok (midnight y m d)
          else Raise ValueError
      | _, _, _ => Raise ValueError
      end
  | _ => Raise ValueError
  end.

(** [dateutil.parser.parse]: it takes a number of ten digits for a
    year, and [datetime] raises an [OverflowError] on a year that does
    not fit a C [int]. *)
Definition parse_date (s : string) : PyResult datetime :=
  match natural s with
  | Some n =>
      if Nat.eqb (String.length s) 10 && (2147483647 <? n)
      then Raise OverflowError
      else read_date s
  | None => read_date s
  end.

Definition isoparse_date (x : json) : PyResult datetime :=
  match x with
  | JStr s => read_date s
  | _ => Raise TypeError
  end.

(** The digits of a decimal literal and the number of them after the
    point. *)
Fixpoint decimal_digits (seen_point : bool) (digits : string) (scale : nat)
    (s : string) : option (string * nat) :=
  match s with
  | "" => Some (digits, scale)
  | String c s' =>
      if is_digit c then
        decimal_digits seen_point (digits ++ String c "")
          (if seen_point then S scale else scale) s'
      else if Ascii.eqb c "." && negb seen_point then
        decimal_digits true digits scale s'
      else None
  end.

Definition float_of_Z (n : Z) : float := PrimFloat.of_uint63 (Uint63.of_Z n).

(** A decimal literal of at most fifteen digits: its value is the
    quotient of two integers that are floats, which the division rounds
    once. *)
Definition decimal_float (s : string) : PyResult float :=
  let '(negative, body) :=
    match s with
    | String "-" body => (true, body)
    | String "+" body => (false, body)
    | _ => (false, s)
    end in
  match decimal_digits false "" 0 body with
  | Some (digits, scale) =>
      match natural digits with
      | Some n =>
          if (String.length digits <=? 15)%nat then
            let q := PrimFloat.div (float_of_Z n) (float_of_Z (10 ^ Z.of_nat scale)) in
            Ok (if negative then PrimFloat.opp q else q)
          else Raise ValueError
      | None => Raise ValueError
      end
  | None => Raise ValueError
  end.

Definition get_str (key : string) (o : list (string * json)) : PyResult string :=
  match assoc key o with
  | Some (JStr s) => Ok s
  | _ => Raise ValidationError
  end.

Definition get_optional_str (key : string) (o : list (string * json))
    : PyResult (option string) :=
  match assoc key o with
  | Some (JStr s) => Ok (Some s)
  | Some JNull | None => Ok None
  | _ => Raise ValidationError
  end.

Fixpoint validate_list {A} (validate : json -> PyResult A) (l : list json)
    : PyResult (list A) :=
  match l with
  | [] => Ok []
  | j :: l' =>
      a ← validate j;
      rest ← validate_list validate l';
      Ok (a :: rest)
  end.

Definition get_list {A} (validate : json -> PyResult A) (key : string)
    (o : list (string * json)) : PyResult (list A) :=
  match assoc key o with
  | Some (JArr l) => validate_list validate l
  | None => Ok []
  | _ => Raise ValidationError
  end.

Definition validate_column (j : json) : PyResult BoardColumn.t :=
  match j with
  | JObj o =>
      id ← get_str "id" o;
      title ← get_str "title" o;
      type ← get_str "type" o;
      Ok {| BoardColumn.id := id; BoardColumn.title := title;
            BoardColumn.type := type |}
  | _ => Raise ValidationError
  end.

Definition validate_group (j : json) : PyResult Group.t :=
  match j with
  | JObj o =>
      id ← get_str "id" o;
      title ← get_str "title" o;
      color ← get_optional_str "color" o;
      position ← get_optional_str "position" o;
      Ok {| Group.id := id; Group.title := title; Group.color := color;
            Group.position := position |}
  | _ => Raise ValidationError
  end.

Definition validate_column_value (j : json) : PyResult ColumnValue.t :=
  match j with
  | JObj o =>
      id ← get_str "id" o;
      text ← match assoc "text" o with
             | Some (JStr s) => Ok s
             | None => Ok ""
             | _ => Raise ValidationError
             end;
      title ← get_str "title" o;
      type ← get_str "type" o;
      value ← get_optional_str "value" o;
      Ok {| ColumnValue.id := id; ColumnValue.text := text;
            ColumnValue.title := title; ColumnValue.type := type;
            ColumnValue.value := value |}
  | _ => Raise ValidationError
  end.

(** An item without group, creator, dates or subitems. *)
Definition validate_item (j : json) : PyResult Item.t :=
  match j with
  | JObj o =>
      id ← get_str "id" o;
      name ← get_str "name" o;
      column_values ← get_list validate_column_value "column_values" o;
      Ok (Item.Build id name None None None None column_values None)
  | _ => Raise ValidationError
  end.

Definition validate_board (j : json) : PyResult Board.t :=
  match j with
  | JObj o =>
      id ← get_str "id" o;
      name ← get_str "name" o;
      description ← get_optional_str "description" o;
      state ← get_optional_str "state" o;
      columns ← get_list validate_column "columns" o;
      groups ← get_list validate_group "groups" o;
      items ← get_list validate_item "items" o;
      Ok {| Board.id := id; Board.name := name;
            Board.description := description; Board.state := state;
            Board.columns := columns; Board.groups := groups;
            Board.items := items |}
  | _ => Raise ValidationError
  end.

Definition runtime : Runtime :=
  {| json_loads := loads;
     isoparse := isoparse_date;
     date_parse := parse_date;
     float_of_str := decimal_float;
     str_of_float := fun _ => "0.0";
     str_of_datetime := fun _ => "0001-01-01 00:00:00";
     Item_model_validate := validate_item;
     Board_model_validate := validate_board;
     utc_now := midnight 2024 1 15 |}.

End Example.

(** ** Vocabulary of the statements *)

(** What an items-phase response carries: no board envelope, or an
    [items_page] with item payloads and possibly a cursor. *)
Inductive Page :=
| NoEnvelope
| ItemsPage (payloads : list json) (cursor : option json).

Definition page_payloads (p : Page) : list json :=
  match p with
  | NoEnvelope => []
  | ItemsPage payloads _ => payloads
  end.

Definition page_cursor (p : Page) : json :=
  match p with
  | NoEnvelope => JNull
  | ItemsPage _ cursor => default JNull cursor
  end.

(** The loop stops on a page without envelope and on a page whose cursor
    is absent, null or empty. *)
Definition stops (p : Page) : bool :=
  match p with
  | NoEnvelope => true
  | ItemsPage _ _ => negb (truthy (page_cursor p))
  end.

(** The [data] of the response for a page, and the response, a 200 with
    a JSON body. *)
Definition page_data (p : Page) : json :=
  match p with
  | NoEnvelope => JObj [("boards", JArr [])]
  | ItemsPage payloads cursor =>
      let fields :=
        match cursor with
        | Some c => [("cursor", c); ("items", JArr payloads)]
        | None => [("items", JArr payloads)]
        end in
      JObj [("boards", JArr [JObj [("items_page", JObj fields)]])]
  end.

Definition data_response (data : json) : PyResult Response :=
  Ok {| status_code := 200; json_body := Some (JObj [("data", data)]);
        body_text := "" |}.

Definition page_response (p : Page) : PyResult Response :=
  data_response (page_data p).

(** A metadata payload with zero boards: [boards] missing, null or an
    empty list. *)
Definition zero_boards (metadata : json) : bool :=
  match metadata with
  | JObj o =>
      match assoc "boards" o with
      | None | Some JNull | Some (JArr []) => true
      | _ => false
      end
  | _ => false
  end.

(** The two requests of the protocol: the metadata query with the
    board id in a list, and the items query with the board id, the page
    size, the cursor and the subitems flag. *)
Definition metadata_request (board_id : Z) : Request :=
  {| query := BOARD_METADATA_QUERY;
     variables := JObj [("board_id", JArr [JInt board_id])] |}.

Definition items_request (settings : Settings) (board_id : Z)
    (include_subitems : bool) (cursor : json) : Request :=
  {| query := ITEMS_PAGE_QUERY;
     variables :=
       JObj [("board_id", JInt board_id);
             ("limit", JInt (page_size settings));
             ("cursor", cursor);
             ("include_subitems", JBool include_subitems)] |}.

(** [s] without the occurrences of the character [x]. *)
Fixpoint without_char (x : ascii) (s : string) : string :=
  match s with
  | "" => ""
  | String c s' =>
      if Ascii.eqb c x then without_char x s' else String c (without_char x s')
  end.

(** The boolean of a decoded checkbox payload: the payload itself, or
    its [checked] field. *)
Definition checkbox_bool (decoded : json) : option bool :=
  match decoded with
  | JBool b => Some b
  | JObj o =>
      match assoc "checked" o with
      | Some (JBool b) => Some b
      | _ => None
      end
  | _ => None
  end.

(** How the width of a column may change from [w] to [w'] when a row is
    appended: it is kept or set to at most 48; it does not decrease
    while it is at most 48; a width above 48 is kept or lowered to 48. *)
Definition width_step (w w' : Z) : Prop :=
  (w' = w \/ w' <= 48) /\
  (w <= 48 -> w <= w') /\
  (48 < w -> w' = w \/ w' = 48).

(** The column types that [_render_column_value] treats specially. *)
Definition recognized (type : string) : bool :=
  existsb (String.eqb type) ["date"; "numbers"; "numeric"; "checkbox"; "people"].

(** ** Data of the worked examples *)
Module Scenario.

Definition quoted (s : string) : string :=
  String "034" s ++ String "034" "".

Definition column (type : string) : BoardColumn.t :=
  {| BoardColumn.id := "c"; BoardColumn.title := "Column";
     BoardColumn.type := type |}.

Definition column_value (text : string) (raw : option string) : ColumnValue.t :=
  {| ColumnValue.id := "c"; ColumnValue.text := text;
     ColumnValue.title := "Column"; ColumnValue.type := "";
     ColumnValue.value := raw |}.

(** The payload [{"date": "soon"}] next to the display text
    [2024-01-15]. *)
Definition bad_date_payload : ColumnValue.t :=
  column_value "2024-01-15"
    (Some ("{" ++ quoted "date" ++ ": " ++ quoted "soon" ++ "}")).

(** The payload [{"checked": true}] next to the display text [v]. *)
Definition checked_payload : ColumnValue.t :=
  column_value "v"
    (Some ("{" ++ quoted "checked" ++ ": true}")).

Definition settings : Settings := {| page_size := 500 |}.

Definition item_payload (id name : string) : json :=
  JObj [("id", JStr id); ("name", JStr name)].

Definition item (id name : string) : Item.t :=
  Item.Build id name None None None None [] None.

Definition i1 : json := item_payload "1" "i1".
Definition i2 : json := item_payload "2" "i2".
Definition i3 : json := item_payload "3" "i3".

(** The metadata of a board without columns and groups. *)
Definition metadata : json :=
  JObj [("boards", JArr [JObj [("id", JStr "7"); ("name", JStr "Q1 Plan")]])].

Definition board_model : Board.t :=
  {| Board.id := "7"; Board.name := "Q1 Plan"; Board.description := None;
     Board.state := None; Board.columns := []; Board.groups := [];
     Board.items := [] |}.

(** The two pages [(items=[i1,i2], cursor="c1"), (items=[i3], cursor="")]
    and a third one that the server would hand out next. *)
Definition page1 : Page := ItemsPage [i1; i2] (Some (JStr "c1")).
Definition page2 : Page := ItemsPage [i3] (Some (JStr "")).
Definition page3 : Page := ItemsPage [item_payload "4" "i4"] None.

Definition fresh (script : list (PyResult Response)) : World :=
  {| pending := script; sent := []; warnings := [] |}.

(** The same, with a second page that repeats the item [i2]. *)
Definition page2_again : Page := ItemsPage [i2; i3] (Some (JStr "")).

Definition repeating_pages : World :=
  fresh (data_response metadata :: map page_response [page1; page2_again]
         ++ [page_response page3])%list.

Definition two_pages : World :=
  fresh (data_response metadata :: map page_response [page1; page2]
         ++ [page_response page3])%list.

(** A board that has no items: one page with an empty list. *)
Definition empty_page : Page := ItemsPage [] (Some JNull).

Definition no_items : World :=
  fresh (data_response metadata :: map page_response [empty_page]
         ++ [page_response page3])%list.

(** The id matches no board. *)
Definition no_board : World :=
  fresh [data_response (JObj [("boards", JArr [])]); page_response page1].

(** A board with one text column whose title has 50 characters, and
    one item whose value in that column has 60 characters. *)
Definition long_title : string :=
  "Title that is exactly fifty characters long, so 50".

Definition long_text : string :=
  "A value that is sixty characters long, wider than its header".

Definition wide_column : BoardColumn.t :=
  {| BoardColumn.id := "notes"; BoardColumn.title := long_title;
     BoardColumn.type := "text" |}.

Definition wide_item : Item.t :=
  Item.Build "1" "i1" None None None None
    [ {| ColumnValue.id := "notes"; ColumnValue.text := long_text;
         ColumnValue.title := long_title; ColumnValue.type := "text";
         ColumnValue.value := None |} ]
    None.

Definition wide_board : Board.t :=
  {| Board.id := "7"; Board.name := "My/Board:Q1"; Board.description := None;
     Board.state := None; Board.columns := [wide_column]; Board.groups := [];
     Board.items := [wide_item] |}.

(** The width of the column of index [letter], if it has one. *)
Definition width_at (letter : nat) (sheet : PyResult Sheet) : PyResult (option Z) :=
  sheet ← sheet; Ok (column_widths sheet !! letter).

End Scenario.

(** ** cli.py and config.py *)

(** [ch.isalnum()] and [ch.isspace()] on the code points below 256. *)
Definition isalnum (ch : ascii) : bool :=
  let n := nat_of_ascii ch in
  existsb (fun range => (fst range <=? n) && (n <=? snd range))%nat
    [(48, 57); (65, 90); (97, 122); (170, 170); (178, 179); (181, 181);
     (185, 186); (188, 190); (192, 214); (216, 246); (248, 255)]%nat.

Definition isspace (ch : ascii) : bool :=
  existsb (Nat.eqb (nat_of_ascii ch))
    [9; 10; 11; 12; 13; 28; 29; 30; 31; 32; 133; 160]%nat.

(** [s.strip()]. *)
Fixpoint lstrip (s : string) : string :=
  match s with
  | "" => ""
  | String ch s' => if isspace ch then lstrip s' else s
  end.

Fixpoint rstrip (s : string) : string :=
  match s with
  | "" => ""
  | String ch s' =>
      match rstrip s' with
      | "" => if isspace ch then "" else String ch ""
      | kept => String ch kept
      end
  end.

Definition strip (s : string) : string := rstrip (lstrip s).

(** [s.split()]: the runs of characters between whitespace; [word]
    holds the characters of the run being read. *)
Fixpoint split_from (word : string) (s : string) : list string :=
  match s with
  | "" => match word with "" => [] | _ => [word] end
  | String ch s' =>
      if isspace ch then
        match word with
        | "" => split_from "" s'
        | _ => word :: split_from "" s'
        end
      else split_from (word ++ String ch "") s'
  end.

Definition split (s : string) : list string := split_from "" s.

(** The character that [_default_output_path] keeps or puts in the
    place of [ch]. *)
Definition safe_char (ch : ascii) : ascii :=
  if isalnum ch || existsb (Ascii.eqb ch) [" "; "-"; "_"]%char then ch else "_"%char.

(** [_default_output_path]; the result is the text of the path. *)
Definition _default_output_path (board_name : string) : string :=
  let safe_name :=
    string_of_list_ascii (map safe_char (list_ascii_of_string board_name)) in
  let safe_name := String.concat "_" (split (strip safe_name)) in
  let safe_name :=
    match safe_name with
    | "" => "monday_board"
    | _ => safe_name
    end in
  safe_name ++ ".xlsx".

(** The two [RuntimeError]s of [Settings.from_env]. *)
Inductive config_error :=
| TokenRequired
| InvalidConfiguration.

(** The validation of [Settings]: [page_size] has [ge=1] and [le=1000]
    and the default 500. *)
Definition Settings_model_validate (page_size_given : option Z)
    : option Settings :=
  let size := default 500 page_size_given in
  if (1 <=? size) && (size <=? 1000) then Some {| page_size := size |}
  else None.

(** [Settings.from_env] with the overrides that the command line builds:
    none, or a [page_size].  [MONDAY_API_TOKEN] is the value of the
    environment variable.  The result is the token and the settings the
    client reads. *)
Definition from_env (api_token : option string)
    (MONDAY_API_TOKEN : option string) (page_size_override : option Z)
    : config_error + string * Settings :=
  let token :=
    match api_token with
    | None | Some "" => MONDAY_API_TOKEN
    | Some _ => api_token
    end in
  match token with
  | None | Some "" => inl TokenRequired
  | Some token =>
      match Settings_model_validate page_size_override with
      | Some settings => inr (token, settings)
      | None => inl InvalidConfiguration
      end
  end.

(** ** Vocabulary of the further statements *)

Definition is_date (v : cell_value) : bool :=
  match v with
  | VDate _ => true
  | _ => false
  end.

(** [formats] marks the dates of [row], and nothing beyond its end. *)
Definition marks_dates (row : list cell_value) (formats : gmap nat string) : Prop :=
  forall i, formats !! i = Some "date" <->
            exists v, (row !! i = Some v /\ is_date v = true)%type.

(** The seven cells that start the row of an item. *)
Definition fixed_cells (item : Item.t) : list cell_value :=
  [ VStr (Item.id item); VStr (Item.name item);
    VStr (default "" (Group.title <$> Item.group item));
    VStr (str_or_empty (Item.group item ≫= Group.color));
    VStr (str_or_empty (Item.creator item ≫= Person.name));
    date_or_empty (Item.created_at item);
    date_or_empty (Item.updated_at item) ].

(** [cells] are what the renderer makes of the values of [item] in
    [columns], column by column. *)
Definition rendered `{R : Runtime} (item : Item.t) (columns : list BoardColumn.t)
    (cells : list cell_value) : Prop :=
  Forall2 (fun column v =>
             exists hint,
               _render_column_value column
                 (Item.column_value_by_id item (BoardColumn.id column)) =
               Ok (v, hint)) columns cells.

(** The cells of the data row that [sheet.append] and the styling loop
    make of [values], in the row of number [row_index] (lines 88-102). *)
Definition styled_row (formats : gmap nat string) (row_index : nat)
    (values : list cell_value) : list Cell :=
  imap (style_cell formats (Nat.even row_index)) (map plain_cell values).

(** The width of a column after a cell of display width [d] is measured
    in a column of width [w] (lines 106-108). *)
Definition grown (w d : Z) : Z :=
  if d >? (if Z.eqb w 0 then 10 else w) then Z.min d 48 else w.

(** The display width of cell [k] of a row, and the largest one among
    rows. *)
Definition cell_width `{R : Runtime} (k : nat) (row : list Cell) : Z :=
  match row !! k with
  | Some cell => _calculate_display_width (value cell)
  | None => 0
  end.

Definition widest `{R : Runtime} (k : nat) (rows : list (list Cell)) : Z :=
  foldr (fun row m => Z.max (cell_width k row) m) 0 rows.

(** The characters of a string. *)
Definition chars (s : string) : list ascii := list_ascii_of_string s.

(** The text with every line feed turned into a comma and a space. *)
Fixpoint commas_for_newlines (s : string) : string :=
  match s with
  | "" => ""
  | String ch s' =>
      if Ascii.eqb ch "010" then String "," (String " " (commas_for_newlines s'))
      else String ch (commas_for_newlines s')
  end.

(** The text made of [lines], with a line feed between one line and
    the next. *)
Fixpoint join_lines (lines : list string) : string :=
  match lines with
  | [] => ""
  | [line] => line
  | line :: rest => line +:+ String "010" (join_lines rest)
  end.

(** ** Sessions that fail *)
Module Failing.

(** The second items request times out. *)
Definition timeout : World :=
  Scenario.fresh
    (data_response Scenario.metadata :: map page_response [Scenario.page1]
     ++ Raise RequestException :: [page_response Scenario.page3])%list.




End Failing.

(** ** A board with a date column *)
Module Plan.

Definition due : BoardColumn.t :=
  {| BoardColumn.id := "due"; BoardColumn.title := "Due";
     BoardColumn.type := "date" |}.

Definition notes : BoardColumn.t :=
  {| BoardColumn.id := "notes"; BoardColumn.title := "Notes";
     BoardColumn.type := "text" |}.

(** An item created on 2024-01-10 and due on 2024-01-15, with a note
    of two lines. *)
Definition first : Item.t :=
  Item.Build "11" "Write the plan"
    (Some {| Group.id := "g"; Group.title := "Todo"; Group.color := None;
             Group.position := None |})
    (Some {| Person.id := Some 3; Person.name := Some "Ada" |})
    (Some (Example.midnight 2024 1 10)) None
    [ {| ColumnValue.id := "notes";
         ColumnValue.text := "draft" ++ String "010" "then a much longer second line";
         ColumnValue.title := "Notes"; ColumnValue.type := "text";
         ColumnValue.value := None |};
      {| ColumnValue.id := "due"; ColumnValue.text := "2024-01-15";
         ColumnValue.title := "Due"; ColumnValue.type := "date";
         ColumnValue.value := None |} ]
    None.

(** An item without any column value. *)
Definition second : Item.t :=
  Item.Build "12" "Review" None None None None [] None.

Definition board : Board.t :=
  {| Board.id := "7"; Board.name := "Q1 Plan";
     Board.description := Some "The plan of the first quarter";
     Board.state := Some "active"; Board.columns := [due; notes];
     Board.groups := []; Board.items := [first; second] |}.

End Plan.

(** ** Date payloads *)
Module Dates.

(** The payload [{"date": "2024-01-15"}] next to the display text
    [Jan 15]. *)
Definition structured : ColumnValue.t :=
  Scenario.column_value "Jan 15"
    (Some ("{" ++ Scenario.quoted "date" ++ ": " ++ Scenario.quoted "2024-01-15" ++ "}")).

(** The display text [2024-01-15] without payload. *)
Definition text_only : ColumnValue.t := Scenario.column_value "2024-01-15" None.

End Dates.

(** ** Boards for the sheet titles *)
Module Titles.

Definition named (name : string) : Board.t :=
  {| Board.id := "7"; Board.name := name; Board.description := None;
     Board.state := None; Board.columns := []; Board.groups := [];
     Board.items := [] |}.

End Titles.


(** * Properties *)

Open Scope list_scope.

(** ** The pagination protocol *)

Section ClientFacts.
Context `{R : Runtime}.
Variable settings : Settings.

Lemma execute_outcome_data (data : json) :
  execute_outcome (data_response data) = Ok data.
Proof. reflexivity. Qed.

(** One turn of the loop is one [execute] of the items query followed by
    [read_page]. *)
Lemma items_loop_turn board_id include_subitems cursor items w :
  items_loop settings board_id include_subitems cursor items w =
  match execute ITEMS_PAGE_QUERY
          (items_variables settings board_id cursor include_subitems) w with
  | (Raise e, w') => (Raise e, w')
  | (Ok page, w') =>
      match read_page page items with
      | Raise e => (Raise e, w')
      | Ok (Break items') => (Ok items', w')
      | Ok (Continue cursor' items') =>
          items_loop settings board_id include_subitems cursor' items' w'
      end
  end.
Proof.
  unfold items_loop, execute. destruct w as [script requests logged]; cbn.
  destruct script as [|outcome rest]; cbn; [reflexivity|].
  destruct (execute_outcome outcome) as [page|e]; cbn; [|reflexivity].
  destruct (read_page page items) as [[items'|cursor' items']|e]; reflexivity.
Qed.

Lemma read_page_no_envelope items :
  read_page (page_data NoEnvelope) items = Ok (Break items).
Proof. reflexivity. Qed.

Lemma read_page_items payloads cursor items validated :
  validate_items payloads = Ok validated ->
  read_page (page_data (ItemsPage payloads cursor)) items =
  Ok (if truthy (default JNull cursor)
      then Continue (default JNull cursor) (items ++ validated)
      else Break (items ++ validated)).
Proof.
  intros Hvalid. unfold read_page.
  destruct cursor as [c|]; cbn.
  - destruct payloads as [|payload payloads']; cbn in *.
    + inversion Hvalid; subst. cbn. destruct (truthy c); reflexivity.
    + rewrite Hvalid. cbn. destruct (truthy c); reflexivity.
  - destruct payloads as [|payload payloads']; cbn in *.
    + inversion Hvalid; subst. reflexivity.
    + rewrite Hvalid. reflexivity.
Qed.

Lemma read_page_of (p : Page) items validated :
  validate_items (page_payloads p) = Ok validated ->
  read_page (page_data p) items =
  Ok (if stops p then Break (items ++ validated)
      else Continue (page_cursor p) (items ++ validated)).
Proof.
  destruct p as [|payloads cursor]; intros Hvalid.
  - cbn in Hvalid. inversion Hvalid; subst.
    rewrite read_page_no_envelope. cbn. by rewrite app_nil_r.
  - rewrite (read_page_items _ _ _ _ Hvalid). cbn.
    destruct (truthy (default JNull cursor)); reflexivity.
Qed.

(** The loop on a script that starts with the responses of [pages], all
    of which carry a cursor, and then of [last], which stops it. *)
Lemma fetch_items_pages board_id include_subitems pages :
  forall last rest itemss last_items requests logged cursor items,
  Forall (fun p => stops p = false) pages ->
  stops last = true ->
  Forall2 (fun p its => validate_items (page_payloads p) = Ok its) pages itemss ->
  validate_items (page_payloads last) = Ok last_items ->
  fetch_items settings board_id include_subitems
    (map page_response (pages ++ [last]) ++ rest) requests logged cursor items =
  (Ok (items ++ concat itemss ++ last_items),
   {| pending := rest;
      sent := requests ++
              map (items_request settings board_id include_subitems)
                (cursor :: map page_cursor pages);
      warnings := logged |}).
Proof.
  induction pages as [|p pages IH];
    intros last rest itemss last_items requests logged cursor items
      Hgo Hstop Hvalid Hlast.
  - inversion Hvalid; subst. cbn [app map fetch_items].
    unfold page_response at 1. rewrite execute_outcome_data. cbn [mbind PyResult_bind].
    rewrite (read_page_of _ _ _ Hlast), Hstop. reflexivity.
  - inversion Hvalid as [|? its ? itemss' Hp Hrest]; subst.
    inversion Hgo as [|? ? Hpgo Hgo']; subst.
    cbn [app map fetch_items].
    unfold page_response at 1. rewrite execute_outcome_data. cbn [mbind PyResult_bind].
    rewrite (read_page_of _ _ _ Hp), Hpgo.
    rewrite (IH last rest itemss' last_items _ logged _ _ Hgo' Hstop Hrest Hlast).
    cbn [concat map]. rewrite <- !app_assoc. reflexivity.
Qed.

(** A whole run: the metadata outcome yields a board model, the pages
    before [last] all carry a cursor, [last] stops the loop, and every
    payload validates. *)
Lemma fetch_board_run board_id include_subitems w meta metadata board_model
    pages last rest itemss :
  pending w = meta :: map page_response (pages ++ [last]) ++ rest ->
  execute_outcome meta = Ok metadata ->
  read_metadata board_id metadata = Ok board_model ->
  Forall (fun p => stops p = false) pages ->
  stops last = true ->
  Forall2 (fun p its => validate_items (page_payloads p) = Ok its)
    (pages ++ [last]) itemss ->
  fetch_board settings board_id include_subitems w =
  (Ok (Board.with_items board_model (concat itemss)),
   {| pending := rest;
      sent := sent w ++ metadata_request board_id ::
              map (items_request settings board_id include_subitems)
                (JNull :: map page_cursor pages);
      warnings := warnings w ++
                  match concat itemss with
                  | [] => [NoItemsRetrieved board_id]
                  | _ => []
                  end |}).
Proof.
  intros Hscript Hmeta Hboard Hgo Hstop Hvalid.
  apply Forall2_app_inv_l in Hvalid as (itemss1 & itemss2 & Hv1 & Hv2 & ->).
  inversion Hv2 as [|? last_items ? ? Hlast Hnil]; subst.
  inversion Hnil; subst.
  unfold fetch_board, execute. rewrite Hscript, Hmeta, Hboard.
  unfold items_loop. cbn [pending sent warnings].
  rewrite (fetch_items_pages board_id include_subitems pages last rest
             itemss1 last_items _ _ _ _ Hgo Hstop Hv1 Hlast).
  rewrite concat_app. cbn [concat app]. rewrite app_nil_r.
  rewrite <- app_assoc. cbn [app].
  destruct (concat itemss1 ++ last_items); cbn [log_warning pending sent warnings].
  - reflexivity.
  - by rewrite app_nil_r.
Qed.

(** The items of a list of payloads: each payload validated, in order. *)
Lemma validate_items_each payloads items :
  Forall2 (fun payload item => Item_model_validate payload = Ok item)
    payloads items ->
  validate_items payloads = Ok items.
Proof.
  induction 1 as [|payload item payloads items Hitem _ IH]; [reflexivity|].
  cbn [validate_items]. rewrite Hitem. cbn. rewrite IH. reflexivity.
Qed.

Lemma validate_items_pages (payloadss : list (list json)) items :
  Forall2 (fun payload item => Item_model_validate payload = Ok item)
    (concat payloadss) items ->
  exists itemss,
    items = concat itemss /\
    Forall2 (fun payloads its => validate_items payloads = Ok its)
      payloadss itemss.
Proof.
  revert items. induction payloadss as [|payloads payloadss IH]; intros items.
  - cbn. intros Hnil. apply Forall2_nil_inv_l in Hnil as ->.
    exists []. split; [reflexivity|constructor].
  - cbn [concat]. intros Hall.
    apply Forall2_app_inv_l in Hall as (its & rest & Hits & Hrest & ->).
    apply IH in Hrest as (itemss & -> & Hpages).
    exists (its :: itemss). split; [reflexivity|].
    constructor; [by apply validate_items_each|exact Hpages].
Qed.

(** C1. For every sequence of pages, of which the last is the first
    one without a cursor or without board envelope, [fetch_board]
    returns the board of the metadata with, as its items, the payloads
    of all the pages validated one by one, in the order received and
    with none left out.  It posts the metadata request and then one
    items request per page, each with the cursor of the page before;
    what the script holds after the stopping page is left pending. *)
Theorem fetch_board_concatenates_pages board_id include_subitems w meta
    metadata board_model pages last rest items :
  pending w = meta :: map page_response (pages ++ [last]) ++ rest ->
  execute_outcome meta = Ok metadata ->
  read_metadata board_id metadata = Ok board_model ->
  Forall (fun p => stops p = false) pages ->
  stops last = true ->
  Forall2 (fun payload item => Item_model_validate payload = Ok item)
    (concat (map page_payloads (pages ++ [last]))) items ->
  let run := fetch_board settings board_id include_subitems w in
  fst run =
    Ok {| Board.id := Board.id board_model;
          Board.name := Board.name board_model;
          Board.description := Board.description board_model;
          Board.state := Board.state board_model;
          Board.columns := Board.columns board_model;
          Board.groups := Board.groups board_model;
          Board.items := items |} /\
  pending (snd run) = rest /\
  sent (snd run) =
    sent w ++ metadata_request board_id ::
    map (items_request settings board_id include_subitems)
      (JNull :: map page_cursor pages).
Proof.
  intros Hscript Hmeta Hboard Hgo Hstop Hvalid run. subst run.
  apply validate_items_pages in Hvalid as (itemss & -> & Hvalid).
  apply Forall2_fmap_l in Hvalid.
  rewrite (fetch_board_run _ _ _ _ _ _ _ _ _ _
             Hscript Hmeta Hboard Hgo Hstop Hvalid).
  cbn [fst snd pending sent]. auto.
Qed.

(** C4. When the metadata response holds zero boards, [fetch_board]
    raises the [RuntimeError] "No board found" having posted the
    metadata request only. *)
Theorem fetch_board_not_found board_id include_subitems w meta metadata rest :
  pending w = meta :: rest ->
  execute_outcome meta = Ok metadata ->
  zero_boards metadata = true ->
  fetch_board settings board_id include_subitems w =
  (Raise (RuntimeError (NoBoardFound board_id)),
   {| pending := rest;
      sent := sent w ++ [metadata_request board_id];
      warnings := warnings w |}).
Proof.
  intros Hscript Hmeta Hzero.
  unfold fetch_board, execute. rewrite Hscript, Hmeta.
  destruct metadata as [| | | | | |o]; try discriminate Hzero.
  unfold read_metadata. cbn in *.
  destruct (assoc "boards" o) as [[| | | | |[|]|]|]; try discriminate Hzero;
    reflexivity.
Qed.

(** C8. When no page carries an item, [fetch_board] returns the board
    with an empty item list, and logs the warning. *)
Theorem fetch_board_no_items board_id include_subitems w meta metadata
    board_model pages last rest :
  pending w = meta :: map page_response (pages ++ [last]) ++ rest ->
  execute_outcome meta = Ok metadata ->
  read_metadata board_id metadata = Ok board_model ->
  Forall (fun p => stops p = false) pages ->
  stops last = true ->
  Forall (fun p => page_payloads p = []) (pages ++ [last]) ->
  let run := fetch_board settings board_id include_subitems w in
  fst run = Ok (Board.with_items board_model []) /\
  Board.items (Board.with_items board_model []) = [] /\
  warnings (snd run) = warnings w ++ [NoItemsRetrieved board_id].
Proof.
  intros Hscript Hmeta Hboard Hgo Hstop Hempty run. subst run.
  assert (Hvalid : Forall2
            (fun p its => validate_items (page_payloads p) = Ok its)
            (pages ++ [last]) (map (fun _ => []) (pages ++ [last]))).
  { clear Hscript. induction Hempty as [|p ps Hp _ IH]; constructor; auto.
    rewrite Hp. reflexivity. }
  assert (Hnone : concat (map (fun _ : Page => @nil Item.t) (pages ++ [last])) = []).
  { clear. induction (pages ++ [last]); auto. }
  rewrite (fetch_board_run _ _ _ _ _ _ _ _ _ _
             Hscript Hmeta Hboard Hgo Hstop Hvalid).
  rewrite Hnone. cbn [fst snd warnings]. auto.
Qed.

End ClientFacts.

(** Two pages of which the second repeats an item of the first: the
    four items in order, the repeated one twice, and the third page is
    never asked for. *)
Lemma fetch_board_two_pages :
  let run := fetch_board (R := Example.runtime) Scenario.settings 7 false
               Scenario.repeating_pages in
  fst run =
    Ok {| Board.id := "7"; Board.name := "Q1 Plan"; Board.description := None;
          Board.state := None; Board.columns := []; Board.groups := [];
          Board.items :=
            [Scenario.item "1" "i1"; Scenario.item "2" "i2";
             Scenario.item "2" "i2"; Scenario.item "3" "i3"] |} /\
  pending (snd run) = [page_response Scenario.page3] /\
  sent (snd run) =
    [] ++ metadata_request 7 ::
    map (items_request Scenario.settings 7 false) [JNull; JStr "c1"].
Proof.
  apply (fetch_board_concatenates_pages (R := Example.runtime)
           Scenario.settings 7 false Scenario.repeating_pages
           (data_response Scenario.metadata) Scenario.metadata
           Scenario.board_model [Scenario.page1] Scenario.page2_again
           [page_response Scenario.page3]
           [Scenario.item "1" "i1"; Scenario.item "2" "i2";
            Scenario.item "2" "i2"; Scenario.item "3" "i3"]).
  - reflexivity.
  - reflexivity.
  - reflexivity.
  - repeat constructor.
  - reflexivity.
  - repeat (constructor; [reflexivity|]). constructor.
Defined.

(** An id that matches no board: the error, and one request sent. *)
Lemma fetch_board_no_board :
  fetch_board (R := Example.runtime) Scenario.settings 7 false Scenario.no_board =
  (Raise (RuntimeError (NoBoardFound 7)),
   {| pending := [page_response Scenario.page1];
      sent := [] ++ [metadata_request 7];
      warnings := [] |}).
Proof.
  apply (fetch_board_not_found (R := Example.runtime) Scenario.settings 7 false
           Scenario.no_board (data_response (JObj [("boards", JArr [])]))
           (JObj [("boards", JArr [])]) [page_response Scenario.page1]);
    reflexivity.
Defined.

(** A board without items. *)
Lemma fetch_board_empty_board :
  let run := fetch_board (R := Example.runtime) Scenario.settings 7 false
               Scenario.no_items in
  fst run = Ok (Board.with_items Scenario.board_model []) /\
  Board.items (Board.with_items Scenario.board_model []) = [] /\
  warnings (snd run) = [] ++ [NoItemsRetrieved 7].
Proof.
  apply (fetch_board_no_items (R := Example.runtime) Scenario.settings 7 false
           Scenario.no_items (data_response Scenario.metadata) Scenario.metadata
           Scenario.board_model [] Scenario.empty_page
           [page_response Scenario.page3]).
  - reflexivity.
  - reflexivity.
  - reflexivity.
  - constructor.
  - reflexivity.
  - repeat constructor.
Defined.

(** ** The column-value renderer *)

Section RendererFacts.
Context `{R : Runtime}.

Lemma replace_scan_comma (s : string) :
  replace_scan "," "" 0 s = without_char "," s.
Proof.
  induction s as [|c s IH]; [reflexivity|].
  cbn [replace_scan without_char String.prefix].
  destruct (ascii_dec "," c) as [<-|Hne].
  - replace (String.prefix "" s) with true by (by destruct s).
    cbn. exact IH.
  - destruct (Ascii.eqb_spec c ","); [congruence|]. by rewrite IH.
Qed.

Lemma str_or_empty_r (s : string) : str_or s "" = s.
Proof. by destruct s. Qed.

(** The code of a column type that is none of the five special ones. *)
Lemma render_other_type column cv :
  recognized (BoardColumn.type column) = false ->
  _render_column_value column (Some cv) = Ok (VStr (ColumnValue.text cv), None).
Proof.
  unfold recognized, _render_column_value. cbn [existsb].
  destruct (String.eqb _ "date"); [discriminate|].
  destruct (String.eqb _ "numbers"); [discriminate|].
  destruct (String.eqb _ "numeric"); [discriminate|].
  destruct (String.eqb _ "checkbox"); [discriminate|].
  destruct (String.eqb _ "people"); [discriminate|]. reflexivity.
Qed.

(** An absent column value is the empty string. *)
Lemma render_absent column :
  _render_column_value column None = Ok (VStr "", None).
Proof. reflexivity. Qed.

(** The handler of [_parse_date] names [ValueError] and [TypeError]:
    another exception of [dateutil.parser.parse] leaves the renderer. *)
Lemma render_date_uncaught column cv decoded e :
  BoardColumn.type column = "date" ->
  parsed_value cv = Ok decoded ->
  match decoded with
  | JObj o => truthy (default JNull (assoc "date" o)) = false
  | _ => True
  end ->
  ColumnValue.text cv <> "" ->
  date_parse (ColumnValue.text cv) = Raise e ->
  e <> ValueError -> e <> TypeError ->
  _render_column_value column (Some cv) = Raise e.
Proof.
  intros Htype Hdecoded Hfield Htext Hparse Hv Ht.
  assert (Hdate : parse_date_text cv = Raise e).
  { unfold parse_date_text. destruct (ColumnValue.text cv); [congruence|].
    rewrite Hparse. by destruct e. }
  unfold _render_column_value, _parse_date.
  rewrite Htype, Hdecoded. cbn.
  destruct decoded as [| | | | | |o]; try (by rewrite Hdate).
  by rewrite Hfield, Hdate.
Qed.

(** C6. For a column of type [numbers] or [numeric] the commas are
    removed from the display text and the rest is read as a float; when
    [float] rejects it the display text is returned as it is. *)
Theorem render_numbers column cv :
  BoardColumn.type column = "numbers" \/ BoardColumn.type column = "numeric" ->
  let text := ColumnValue.text cv in
  str_replace "," "" text = without_char "," text /\
  (forall f, float_of_str (without_char "," text) = Ok f ->
   _render_column_value column (Some cv) = Ok (VFloat f, None)) /\
  (float_of_str (without_char "," text) = Raise ValueError ->
   _render_column_value column (Some cv) = Ok (VStr text, None)).
Proof.
  intros Htype text. subst text.
  set (text := ColumnValue.text cv).
  assert (Hcommas : str_replace "," "" text = without_char "," text)
    by apply replace_scan_comma.
  assert (Hbranch : _render_column_value column (Some cv) =
            try_except
              (f ← float_of_str (without_char "," text); Ok (VFloat f, None))
              [ValueError; AttributeError] (Ok (VStr text, None))).
  { unfold _render_column_value. fold text. rewrite Hcommas.
    destruct Htype as [-> | ->]; reflexivity. }
  split; [exact Hcommas|]. rewrite Hbranch.
  split; [intros f ->|intros ->]; reflexivity.
Qed.

(** C7. For a column of type [checkbox] the raw payload is decoded; a
    boolean, or the boolean [checked] field of an object, is the cell
    value; whatever else is decoded, and a payload that is absent,
    empty or not JSON, gives the display text. *)
Theorem render_checkbox column cv :
  BoardColumn.type column = "checkbox" ->
  let text := ColumnValue.text cv in
  (forall raw decoded,
   ColumnValue.value cv = Some raw -> raw <> "" ->
   json_loads raw = Ok decoded ->
   _render_column_value column (Some cv) =
   Ok (match checkbox_bool decoded with
       | Some b => VBool b
       | None => VStr text
       end, None)) /\
  (forall raw,
   ColumnValue.value cv = Some raw ->
   json_loads raw = Raise ValueError \/ json_loads raw = Raise TypeError ->
   _render_column_value column (Some cv) = Ok (VStr text, None)) /\
  (ColumnValue.value cv = None \/ ColumnValue.value cv = Some "" ->
   _render_column_value column (Some cv) = Ok (VStr text, None)).
Proof.
  intros Htype text.
  assert (Hbranch : forall decoded, parsed_value cv = Ok decoded ->
            _render_column_value column (Some cv) =
            Ok (match checkbox_bool decoded with
                | Some b => VBool b
                | None => VStr text
                end, None)).
  { intros decoded Hdecoded. unfold _render_column_value.
    rewrite Htype, Hdecoded. cbn. fold text. rewrite str_or_empty_r.
    destruct decoded as [| | | | | |o]; try reflexivity.
    cbn. destruct (assoc "checked" o) as [[]|]; reflexivity. }
  split; [|split].
  - intros raw decoded Hraw Hne Hloads. apply Hbranch.
    unfold parsed_value. rewrite Hraw.
    destruct raw; [congruence|]. by rewrite Hloads.
  - intros raw Hraw Hloads.
    rewrite (Hbranch (JStr text)); [reflexivity|].
    unfold parsed_value. rewrite Hraw. destruct raw; [reflexivity|].
    destruct Hloads as [-> | ->]; reflexivity.
  - intros Hnone. rewrite (Hbranch (JStr text)); [reflexivity|].
    unfold parsed_value. destruct Hnone as [-> | ->]; reflexivity.
Qed.

(** The date column: a date field that [isoparse] reads gives the
    date. *)
Lemma render_date_structured column cv o d :
  BoardColumn.type column = "date" ->
  parsed_value cv = Ok (JObj o) ->
  truthy (default JNull (assoc "date" o)) = true ->
  isoparse (default JNull (assoc "date" o)) = Ok d ->
  _render_column_value column (Some cv) = Ok (VDate d, Some "date").
Proof.
  intros Htype Hdecoded Htruthy Hiso.
  unfold _render_column_value, _parse_date.
  rewrite Htype, Hdecoded. cbn. rewrite Htruthy, Hiso. reflexivity.
Qed.

(** A payload without usable date field: the display text decides. *)
Lemma render_date_from_text column cv decoded :
  BoardColumn.type column = "date" ->
  parsed_value cv = Ok decoded ->
  match decoded with
  | JObj o => truthy (default JNull (assoc "date" o)) = false
  | _ => True
  end ->
  _render_column_value column (Some cv) =
  (parsed ← parse_date_text cv;
   Ok match parsed with
      | Some d => (VDate d, Some "date")
      | None => (VStr (ColumnValue.text cv), None)
      end).
Proof.
  intros Htype Hdecoded Hfield.
  unfold _render_column_value, _parse_date.
  rewrite Htype, Hdecoded. cbn.
  destruct decoded as [| | | | | |o]; try (by destruct (parse_date_text cv) as [[]|]).
  rewrite Hfield. by destruct (parse_date_text cv) as [[]|].
Qed.

(** A date field that [isoparse] rejects: the display text is returned
    as text, whatever [dateutil.parser.parse] makes of it. *)
Lemma render_date_rejected_field column cv o e :
  BoardColumn.type column = "date" ->
  parsed_value cv = Ok (JObj o) ->
  truthy (default JNull (assoc "date" o)) = true ->
  isoparse (default JNull (assoc "date" o)) = Raise e ->
  e = ValueError \/ e = TypeError ->
  _render_column_value column (Some cv) =
  Ok (VStr (ColumnValue.text cv), None).
Proof.
  intros Htype Hdecoded Htruthy Hiso He.
  unfold _render_column_value, _parse_date.
  rewrite Htype, Hdecoded. cbn. rewrite Htruthy, Hiso.
  destruct He as [-> | ->]; reflexivity.
Qed.

End RendererFacts.

(** C5 fails at a date column without payload whose display text is
    [2147483648]: [dateutil.parser.parse] raises an [OverflowError] on
    it, the handler of [_parse_date] names [ValueError] and [TypeError]
    only, and the exception leaves the renderer. *)
Theorem render_date_overflow_escapes :
  date_parse (Runtime := Example.runtime) "2147483648" = Raise OverflowError /\
  _render_column_value (R := Example.runtime) (Scenario.column "date")
    (Some (Scenario.column_value "2147483648" None)) = Raise OverflowError.
Proof. split; reflexivity. Qed.

(** [1,234.50] is the float 1234.5, and [N/A] stays text. *)
Lemma render_numbers_example :
  _render_column_value (R := Example.runtime) (Scenario.column "numbers")
    (Some (Scenario.column_value "1,234.50" None)) =
  Ok (VFloat 1234.5%float, None) /\
  _render_column_value (R := Example.runtime) (Scenario.column "numeric")
    (Some (Scenario.column_value "N/A" None)) = Ok (VStr "N/A", None).
Proof.
  split.
  - destruct (render_numbers (R := Example.runtime) (Scenario.column "numbers")
                (Scenario.column_value "1,234.50" None) (or_introl eq_refl))
      as (_ & Hfloat & _).
    apply Hfloat. reflexivity.
  - destruct (render_numbers (R := Example.runtime) (Scenario.column "numeric")
                (Scenario.column_value "N/A" None) (or_intror eq_refl))
      as (_ & _ & Htext).
    apply Htext. reflexivity.
Defined.

(** The payload [{"checked": true}] is the boolean, and a payload that
    is not JSON gives the display text. *)
Lemma render_checkbox_example :
  _render_column_value (R := Example.runtime) (Scenario.column "checkbox")
    (Some Scenario.checked_payload) = Ok (VBool true, None) /\
  _render_column_value (R := Example.runtime) (Scenario.column "checkbox")
    (Some (Scenario.column_value "v" (Some "yes"))) = Ok (VStr "v", None).
Proof.
  split.
  - destruct (render_checkbox (R := Example.runtime) (Scenario.column "checkbox")
                Scenario.checked_payload eq_refl) as (Hdecoded & _ & _).
    apply (Hdecoded _ (JObj [("checked", JBool true)]) eq_refl);
      [discriminate|reflexivity].
  - destruct (render_checkbox (R := Example.runtime) (Scenario.column "checkbox")
                (Scenario.column_value "v" (Some "yes")) eq_refl)
      as (_ & Hrejected & _).
    apply (Hrejected "yes" eq_refl). left. reflexivity.
Defined.

(** C2, at the payload [{"date": "soon"}] with display text
    [2024-01-15]: the payload decodes, [isoparse] rejects its date
    field, the display text is a date for [parse], and the renderer
    returns the display text as text without hint. *)
Theorem render_date_gives_up_after_bad_field :
  json_loads (Runtime := Example.runtime)
    (default "" (ColumnValue.value Scenario.bad_date_payload)) =
  Ok (JObj [("date", JStr "soon")]) /\
  isoparse (Runtime := Example.runtime) (JStr "soon") = Raise ValueError /\
  date_parse (Runtime := Example.runtime) "2024-01-15" =
  Ok (Example.midnight 2024 1 15) /\
  _render_column_value (R := Example.runtime) (Scenario.column "date")
    (Some Scenario.bad_date_payload) = Ok (VStr "2024-01-15", None).
Proof. repeat split; reflexivity. Qed.

(** ** The workbook builder *)

(** What [re] makes of the pattern: the set lacks the closing bracket,
    which follows it as an ordinary character. *)
Lemma sheet_title_pattern_compiled :
  re_compile sheet_title_pattern =
  Some [In ["\"; "/"; "*"; "?"; ":"; "\"; "["; "\"]%char; Literal "]"].
Proof. reflexivity. Qed.

Lemma sheet_title_re_compiled : re_compile sheet_title_pattern = Some sheet_title_re.
Proof. reflexivity. Qed.

Lemma str_take_length n s : (String.length (str_take n s) <= n)%nat.
Proof.
  revert s. induction n as [|n IH]; intros [|c s]; cbn; try lia.
  specialize (IH s). lia.
Qed.

Lemma _sanitize_sheet_title_length title :
  (String.length (_sanitize_sheet_title title) <= 31)%nat.
Proof. apply str_take_length. Qed.

Lemma items_sheet_title_fallback board :
  _sanitize_sheet_title (Board.name board) = "" -> items_sheet_title board = "Board".
Proof. unfold items_sheet_title. by intros ->. Qed.

Lemma items_sheet_title_length board :
  (1 <= String.length (items_sheet_title board) <= 31)%nat.
Proof.
  unfold items_sheet_title.
  pose proof (_sanitize_sheet_title_length (Board.name board)) as Hlen.
  destruct (_sanitize_sheet_title (Board.name board)); cbn in *; lia.
Qed.

(** A title without closing bracket is left as it is, whatever else it
    contains. *)
Lemma re_sub_title_without_bracket title :
  Forall (fun c => c <> "]"%char) (list_ascii_of_string title) ->
  re_sub sheet_title_re "_" title = title.
Proof.
  unfold re_sub. induction title as [|c title IH]; [reflexivity|].
  cbn [list_ascii_of_string]. intros Hno.
  inversion Hno as [|? ? Hc Htitle]; subst.
  cbn [re_sub_scan]. rewrite (IH Htitle).
  replace (re_match sheet_title_re (String c title)) with false; [reflexivity|].
  destruct title as [|c' title']; cbn.
  - by rewrite andb_false_r.
  - cbn in Htitle. inversion Htitle as [|? ? Hc' _]; subst.
    destruct (Ascii.eqb_spec c' "]"); [congruence|].
    by rewrite andb_false_r.
Qed.

(** C3, at the board name [My/Board:Q1]: the sheet title is the name
    itself, with its slash and its colon. *)
Theorem sheet_title_keeps_slash_and_colon :
  _sanitize_sheet_title "My/Board:Q1" = "My/Board:Q1" /\
  items_sheet_title Scenario.wide_board = "My/Board:Q1".
Proof. split; reflexivity. Qed.

Section WorkbookFacts.
Context `{R : Runtime}.

Lemma render_columns_length item columns :
  forall row formats row' formats',
  render_columns item columns row formats = Ok (row', formats') ->
  length row' = (length row + length columns)%nat.
Proof.
  induction columns as [|column columns IH]; intros row formats row' formats'.
  - cbn. intros [= <- _]. lia.
  - cbn [render_columns].
    destruct (_render_column_value column _) as [[v hint]|e]; [|discriminate].
    cbn [mbind PyResult_bind fst snd]. intros Hrest.
    apply IH in Hrest. rewrite length_app in Hrest. cbn in *. lia.
Qed.

Lemma _build_item_row_length item columns row formats :
  _build_item_row item columns = Ok (row, formats) ->
  length row = (7 + length columns)%nat.
Proof.
  unfold _build_item_row. intros Hrow.
  apply render_columns_length in Hrow. exact Hrow.
Qed.

(** What appending one item does to the sheet. *)
Lemma append_item_sheet columns sheet item sheet' :
  append_item columns sheet item = Ok sheet' ->
  exists row,
    rows sheet' = rows sheet ++ [row] /\
    length row = (7 + length columns)%nat /\
    column_widths sheet' = fit_columns 0 row (column_widths sheet).
Proof.
  unfold append_item.
  destruct (_build_item_row item columns) as [[row formats]|e] eqn:Hrow;
    [|discriminate].
  cbn [mbind PyResult_bind fst snd]. intros [= <-]. cbn.
  eexists. split; [reflexivity|]. split; [|reflexivity].
  rewrite length_imap, length_map. by eapply _build_item_row_length.
Qed.

Lemma append_items_rows columns items :
  forall sheet sheet',
  append_items columns sheet items = Ok sheet' ->
  exists data_rows,
    rows sheet' = rows sheet ++ data_rows /\
    length data_rows = length items /\
    Forall (fun row => length row = (7 + length columns)%nat) data_rows.
Proof.
  induction items as [|item items IH]; intros sheet sheet'.
  - cbn. intros [= <-]. exists []. by rewrite app_nil_r.
  - cbn [append_items].
    destruct (append_item columns sheet item) as [sheet1|e] eqn:Hitem;
      [|discriminate].
    cbn [mbind PyResult_bind]. intros Hrest.
    apply append_item_sheet in Hitem as (row & Hrows & Hlen & _).
    apply IH in Hrest as (data_rows & Hrows' & Hlen' & Hall).
    exists (row :: data_rows). rewrite Hrows', Hrows, <- app_assoc.
    split; [reflexivity|]. split; [cbn; lia|]. by constructor.
Qed.

(** The three counts on the summary sheet. *)
Lemma summary_counts board :
  summary_value "Item Count" (_populate_summary_sheet board) =
    Some (VInt (Z.of_nat (length (Board.items board)))) /\
  summary_value "Group Count" (_populate_summary_sheet board) =
    Some (VInt (Z.of_nat (length (Board.groups board)))) /\
  summary_value "Column Count" (_populate_summary_sheet board) =
    Some (VInt (Z.of_nat (length (Board.columns board)))).
Proof. repeat split; reflexivity. Qed.

(** C9. In the workbook built for a board the summary's item count is
    the number of rows of the items sheet below its header row, the
    group and column counts are the lengths of the board's group and
    column lists, and every row of the items sheet has the seven fixed
    columns and one per board column. *)
Theorem workbook_counts_agree board workbook :
  build_workbook board = Ok workbook ->
  summary_value "Item Count" (summary_sheet workbook) =
    Some (VInt (Z.of_nat (max_row (items_sheet workbook) - 1))) /\
  summary_value "Group Count" (summary_sheet workbook) =
    Some (VInt (Z.of_nat (length (Board.groups board)))) /\
  summary_value "Column Count" (summary_sheet workbook) =
    Some (VInt (Z.of_nat (length (Board.columns board)))) /\
  Forall (fun row => length row = (7 + length (Board.columns board))%nat)
    (rows (items_sheet workbook)).
Proof.
  unfold build_workbook.
  destruct (set_title "Sheet" _ _) as [items_title|e]; [|discriminate].
  cbn [mbind PyResult_bind].
  destruct (set_title "" _ _) as [summary_title|e]; [|discriminate].
  cbn [mbind PyResult_bind]. unfold _populate_items_sheet.
  destruct (append_items _ _ _) as [sheet|e] eqn:Hitems; [|discriminate].
  cbn [mbind PyResult_bind]. intros [= <-]. cbn [items_sheet summary_sheet].
  apply append_items_rows in Hitems as (data_rows & Hrows & Hlen & Hall).
  change (summary_value ?l (with_title _ ?sh)) with (summary_value l sh).
  destruct (summary_counts board) as (Hitems & Hgroups & Hcolumns).
  unfold max_row, with_auto_filter. cbn [rows]. rewrite Hrows.
  rewrite length_app, Hlen. cbn [rows items_sheet_header length].
  replace (1 + length (Board.items board) - 1)%nat
    with (length (Board.items board)) by lia.
  repeat split; try assumption.
  constructor; [|exact Hall].
  unfold headers, Board.ordered_columns.
  rewrite !length_map, length_app, length_map. reflexivity.
Qed.

(** The widths: one cell measured. *)
Lemma fit_column_step idx v widths letter w :
  widths !! letter = Some w ->
  exists w', fit_column idx v widths !! letter = Some w' /\ width_step w w'.
Proof.
  intros Hw. unfold fit_column.
  destruct (_ >? _) eqn:Hwider.
  - destruct (decide (S idx = letter)) as [<-|Hne].
    + rewrite lookup_insert_eq. eexists. split; [reflexivity|].
      unfold previous_width in Hwider. rewrite Hw in Hwider. cbn in Hwider.
      unfold width_step. destruct (Z.eqb_spec w 0); lia.
    + rewrite lookup_insert_ne by done. exists w. unfold width_step. split; [done|lia].
  - exists w. unfold width_step. split; [done|lia].
Qed.

Lemma width_step_trans w1 w2 w3 :
  width_step w1 w2 -> width_step w2 w3 -> width_step w1 w3.
Proof. unfold width_step. lia. Qed.

Lemma fit_columns_step cells :
  forall idx widths letter w,
  widths !! letter = Some w ->
  exists w', fit_columns idx cells widths !! letter = Some w' /\ width_step w w'.
Proof.
  induction cells as [|cell cells IH]; intros idx widths letter w Hw.
  - exists w. unfold width_step. split; [done|lia].
  - cbn [fit_columns].
    destruct (fit_column_step idx (value cell) widths letter w Hw)
      as (w1 & Hw1 & Hstep1).
    destruct (IH (S idx) _ letter w1 Hw1) as (w2 & Hw2 & Hstep2).
    exists w2. split; [done|]. by eapply width_step_trans.
Qed.

(** The widths the header row sets. *)
Lemma header_widths_lookup cells :
  forall idx widths k cell,
  cells !! k = Some cell ->
  header_widths idx cells widths !! (idx + k)%nat =
  Some (Z.max (len match value cell with VStr s => s | _ => "" end) 12).
Proof.
  assert (Hkeep : forall cells idx widths j, (j < idx)%nat ->
            header_widths idx cells widths !! j = widths !! j).
  { clear. induction cells as [|c cells IH]; intros idx widths j Hj; [done|].
    cbn [header_widths]. rewrite IH by lia. apply lookup_insert_ne. lia. }
  induction cells as [|c cells IH]; intros idx widths k cell Hk; [done|].
  cbn [header_widths]. destruct k as [|k].
  - injection Hk as ->. rewrite Nat.add_0_r, Hkeep by lia.
    apply lookup_insert_eq.
  - cbn in Hk. replace (idx + S k)%nat with (S idx + k)%nat by lia.
    by apply IH.
Qed.

Lemma append_item_step columns sheet item sheet' letter w :
  append_item columns sheet item = Ok sheet' ->
  column_widths sheet !! letter = Some w ->
  exists w', column_widths sheet' !! letter = Some w' /\ width_step w w'.
Proof.
  intros Hitem Hw.
  apply append_item_sheet in Hitem as (row & _ & _ & ->).
  by apply fit_columns_step.
Qed.

End WorkbookFacts.

(** The board [Q1 Plan], with two columns and two items: the counts and
    the rows. *)
Lemma workbook_counts_example :
  match build_workbook (R := Example.runtime) Plan.board with
  | Ok workbook =>
      summary_value "Item Count" (summary_sheet workbook) =
        Some (VInt (Z.of_nat (max_row (items_sheet workbook) - 1))) /\
      summary_value "Group Count" (summary_sheet workbook) =
        Some (VInt (Z.of_nat (length (Board.groups Plan.board)))) /\
      summary_value "Column Count" (summary_sheet workbook) =
        Some (VInt (Z.of_nat (length (Board.columns Plan.board)))) /\
      Forall (fun row =>
                length row = (7 + length (Board.columns Plan.board))%nat)
        (rows (items_sheet workbook))
  | Raise _ => False
  end.
Proof.
  destruct (build_workbook (R := Example.runtime) Plan.board)
    as [workbook|e] eqn:Hbuilt.
  - exact (workbook_counts_agree (R := Example.runtime) _ _ Hbuilt).
  - vm_compute in Hbuilt. discriminate Hbuilt.
Defined.

(** * Further properties *)

(** ** The transport *)

(** X1. A response with a 4xx or 5xx status is turned into the
    [RuntimeError] that carries the status and the decoded body, or the
    raw text when the body is not JSON, whatever the body holds. *)
Theorem execute_failure_status (response : Response) :
  400 <= status_code response < 600 ->
  execute_outcome (Ok response) =
  Raise (RuntimeError
           (RequestFailed (status_code response)
              (default (JObj [("text", JStr (body_text response))])
                 (json_body response)))).
Proof.
  intros Hstatus. unfold execute_outcome, _raise_for_status. cbn [mbind PyResult_bind].
  replace (400 <=? status_code response) with true by (symmetry; apply Z.leb_le; lia).
  replace (status_code response <? 600) with true by (symmetry; apply Z.ltb_lt; lia).
  unfold Response_json. by destruct (json_body response).
Qed.

(** X2. On any other status a JSON object with an [errors] member is
    turned into the [RuntimeError] that carries the errors, also when
    it has [data]; without [errors] the result is its [data], or an
    empty object when it has none. *)
Theorem execute_success_body (response : Response) (o : list (string * json)) :
  ~ 400 <= status_code response < 600 ->
  json_body response = Some (JObj o) ->
  execute_outcome (Ok response) =
  match assoc "errors" o with
  | Some errors => Raise (RuntimeError (ApiReturnedErrors errors))
  | None => Ok (default (JObj []) (assoc "data" o))
  end.
Proof.
  intros Hstatus Hbody. unfold execute_outcome, _raise_for_status. cbn [mbind PyResult_bind].
  replace ((400 <=? status_code response) && (status_code response <? 600))
    with false.
  2: { symmetry. apply andb_false_iff.
       destruct (Z.leb_spec 400 (status_code response)); [right|by left].
       apply Z.ltb_ge. lia. }
  unfold Response_json. rewrite Hbody. cbn.
  destruct (assoc "errors" o); reflexivity.
Qed.

Lemma execute_failure_example :
  execute_outcome
    (Ok {| status_code := 401; json_body := None; body_text := "denied" |}) =
  Raise (RuntimeError (RequestFailed 401 (JObj [("text", JStr "denied")]))).
Proof.
  apply (execute_failure_status
           {| status_code := 401; json_body := None; body_text := "denied" |}).
  cbn. lia.
Defined.

Lemma execute_errors_example :
  execute_outcome
    (Ok {| status_code := 200;
           json_body := Some (JObj [("data", JObj []); ("errors", JArr [JStr "e"])]);
           body_text := "" |}) =
  Raise (RuntimeError (ApiReturnedErrors (JArr [JStr "e"]))).
Proof.
  apply (execute_success_body
           {| status_code := 200;
              json_body := Some (JObj [("data", JObj []); ("errors", JArr [JStr "e"])]);
              body_text := "" |}
           [("data", JObj []); ("errors", JArr [JStr "e"])]).
  - cbn. lia.
  - reflexivity.
Defined.

(** ** The fetch as a whole *)

Section FetchFacts.
Context `{R : Runtime}.
Variable settings : Settings.

(** The loop goes on only with a cursor that is not empty. *)
Lemma read_page_continues page items cursor items' :
  read_page page items = Ok (Continue cursor items') -> truthy cursor = true.
Proof.
  unfold read_page. intros Hturn.
  repeat match type of Hturn with
         | mbind _ ?m = _ =>
             destruct m eqn:?; cbn [mbind PyResult_bind] in Hturn;
             [|discriminate Hturn]
         | (if ?b then _ else _) = _ =>
             destruct b eqn:?; [discriminate Hturn|]
         end.
  injection Hturn as <- _. by apply negb_false_iff.
Qed.

(** What the loop does to the session, on any script. *)
Lemma fetch_items_session board_id include_subitems script :
  forall requests logged cursor items,
  let run := fetch_items settings board_id include_subitems script requests
               logged cursor items in
  exists cursors,
    sent (snd run) =
      requests ++ map (items_request settings board_id include_subitems)
                    (cursor :: cursors) /\
    pending (snd run) = drop (S (length cursors)) script /\
    Forall (fun c => truthy c = true) cursors /\
    warnings (snd run) = logged.
Proof.
  induction script as [|outcome rest IH]; intros requests logged cursor items.
  - exists []. cbn. auto.
  - cbn [fetch_items].
    destruct (execute_outcome outcome ≫= _) as [[items'|cursor' items']|e] eqn:Hturn.
    + exists []. cbn. rewrite drop_0. auto.
    + destruct (IH (requests ++ [items_request settings board_id include_subitems cursor])
                  logged cursor' items') as (cursors & Hsent & Hpending & Htruthy & Hlog).
      exists (cursor' :: cursors). cbn [length drop map].
      split; [|split; [|split]]; try assumption.
      * etrans; [exact Hsent|]. by rewrite <- app_assoc.
      * constructor; [|assumption].
        destruct (execute_outcome outcome) as [page|]; [|discriminate].
        by eapply read_page_continues.
    + exists []. cbn. rewrite drop_0. auto.
Qed.
(** X3. On any session [fetch_board] sends the metadata request first,
    with the board id in a list, and then only items requests: each
    holds the board id, the configured page size as limit, a cursor and
    the subitems flag; the first of them carries no cursor and each
    later one a cursor that is not empty.  It consumes one pending
    outcome per request sent. *)
Theorem fetch_board_session board_id include_subitems w :
  let run := fetch_board settings board_id include_subitems w in
  exists cursors,
    sent (snd run) =
      sent w ++
      {| query := BOARD_METADATA_QUERY;
         variables := JObj [("board_id", JArr [JInt board_id])] |} ::
      map (fun cursor =>
             {| query := ITEMS_PAGE_QUERY;
                variables :=
                  JObj [("board_id", JInt board_id);
                        ("limit", JInt (page_size settings));
                        ("cursor", cursor);
                        ("include_subitems", JBool include_subitems)] |})
        cursors /\
    pending (snd run) = drop (S (length cursors)) (pending w) /\
    (cursors = [] \/
     exists later, cursors = JNull :: later /\
                   Forall (fun c => truthy c = true) later).
Proof.
  intros run. subst run.
  change (fun cursor => {| query := ITEMS_PAGE_QUERY; variables := _ |})
    with (items_request settings board_id include_subitems).
  change {| query := BOARD_METADATA_QUERY; variables := _ |}
    with (metadata_request board_id).
  unfold fetch_board, execute.
  destruct (pending w) as [|meta rest] eqn:Hscript.
  { exists []. cbn. auto. }
  destruct (execute_outcome meta) as [metadata|e].
  2: { exists []. cbn. rewrite drop_0. auto. }
  destruct (read_metadata board_id metadata) as [board_model|e].
  2: { exists []. cbn. rewrite drop_0. auto. }
  unfold items_loop. cbn [pending sent warnings].
  pose proof (fetch_items_session board_id include_subitems rest
                (sent w ++ [metadata_request board_id]) (warnings w) JNull [])
    as (later & Hsent & Hpending & Htruthy & _).
  cbn zeta in *.
  destruct (fetch_items _ _ _ _ _ _ _ _) as [[items|e] w2]; cbn [fst snd] in *.
  - exists (JNull :: later).
    assert (Hsame : forall w3, sent w3 = sent w2 -> pending w3 = pending w2 ->
              sent w3 = sent w ++ metadata_request board_id ::
                map (items_request settings board_id include_subitems)
                  (JNull :: later) /\
              pending w3 = drop (S (length (JNull :: later))) (meta :: rest) /\
              (JNull :: later = [] \/
               exists l, JNull :: later = JNull :: l /\
                         Forall (fun c => truthy c = true) l)).
    { intros w3 -> ->. rewrite Hsent, Hpending, <- app_assoc.
      split; [reflexivity|]. split; [reflexivity|]. right. eauto. }
    destruct items; apply Hsame; reflexivity.
  - exists (JNull :: later). rewrite Hsent, Hpending, <- app_assoc.
    split; [reflexivity|]. split; [reflexivity|]. right. eauto.
Qed.

(** X4. The warning is logged exactly when [fetch_board] returns a
    board without items; a fetch that fails logs nothing. *)
Theorem fetch_board_warns_when_empty board_id include_subitems w :
  let run := fetch_board settings board_id include_subitems w in
  match fst run with
  | Ok board =>
      warnings (snd run) =
      warnings w ++ match Board.items board with
                    | [] => [NoItemsRetrieved board_id]
                    | _ => []
                    end
  | Raise _ => warnings (snd run) = warnings w
  end.
Proof.
  intros run. subst run. unfold fetch_board, execute.
  destruct (pending w) as [|meta rest]; [reflexivity|].
  destruct (execute_outcome meta) as [metadata|e]; [|reflexivity].
  destruct (read_metadata board_id metadata) as [board_model|e]; [|reflexivity].
  unfold items_loop. cbn [pending sent warnings].
  pose proof (fetch_items_session board_id include_subitems rest
                (sent w ++ [metadata_request board_id]) (warnings w) JNull [])
    as (later & _ & _ & _ & Hlog).
  cbn zeta in *.
  destruct (fetch_items _ _ _ _ _ _ _ _) as [[items|e] w2]; cbn [fst snd] in *;
    [|exact Hlog].
  destruct items; cbn; rewrite Hlog; [reflexivity|by rewrite app_nil_r].
Qed.

(** The loop on pages that all carry a cursor, followed by an outcome on
    which the turn fails. *)
Lemma fetch_items_aborts board_id include_subitems pages :
  forall bad e rest itemss requests logged cursor items,
  Forall (fun p => stops p = false) pages ->
  Forall2 (fun p its => validate_items (page_payloads p) = Ok its) pages itemss ->
  (forall items', execute_outcome bad ≫= (fun page => read_page page items')
                  = Raise e) ->
  fetch_items settings board_id include_subitems
    (map page_response pages ++ bad :: rest) requests logged cursor items =
  (Raise e,
   {| pending := rest;
      sent := requests ++
              map (items_request settings board_id include_subitems)
                (cursor :: map page_cursor pages);
      warnings := logged |}).
Proof.
  induction pages as [|p pages IH];
    intros bad e rest itemss requests logged cursor items Hgo Hvalid Hbad.
  - cbn [map app fetch_items]. by rewrite Hbad.
  - inversion Hvalid as [|? its ? itemss' Hp Hrest]; subst.
    inversion Hgo as [|? ? Hpgo Hgo']; subst.
    cbn [app map fetch_items].
    unfold page_response at 1. rewrite execute_outcome_data. cbn [mbind PyResult_bind].
    rewrite (read_page_of _ _ _ Hp), Hpgo.
    rewrite (IH bad e rest itemss' _ logged _ _ Hgo' Hrest Hbad).
    by rewrite <- app_assoc.
Qed.

Lemma fetch_board_aborts board_id include_subitems w meta metadata board_model
    pages bad e rest itemss :
  pending w = meta :: map page_response pages ++ bad :: rest ->
  execute_outcome meta = Ok metadata ->
  read_metadata board_id metadata = Ok board_model ->
  Forall (fun p => stops p = false) pages ->
  Forall2 (fun p its => validate_items (page_payloads p) = Ok its) pages itemss ->
  (forall items', execute_outcome bad ≫= (fun page => read_page page items')
                  = Raise e) ->
  fetch_board settings board_id include_subitems w =
  (Raise e,
   {| pending := rest;
      sent := sent w ++ metadata_request board_id ::
              map (items_request settings board_id include_subitems)
                (JNull :: map page_cursor pages);
      warnings := warnings w |}).
Proof.
  intros Hscript Hmeta Hboard Hgo Hvalid Hbad.
  unfold fetch_board, execute. rewrite Hscript, Hmeta, Hboard.
  unfold items_loop. cbn [pending sent warnings].
  rewrite (fetch_items_aborts board_id include_subitems pages bad e rest itemss
             _ _ _ _ Hgo Hvalid Hbad).
  by rewrite <- app_assoc.
Qed.

(** X5. A request of the items phase that fails aborts the fetch: the
    error is raised as it is, the items of the pages before are not
    returned, no further request is sent and nothing is logged. *)
Theorem fetch_board_fails_fast board_id include_subitems w meta metadata
    board_model pages bad e rest itemss :
  pending w = meta :: map page_response pages ++ bad :: rest ->
  execute_outcome meta = Ok metadata ->
  read_metadata board_id metadata = Ok board_model ->
  Forall (fun p => stops p = false) pages ->
  Forall2 (fun p its => validate_items (page_payloads p) = Ok its) pages itemss ->
  execute_outcome bad = Raise e ->
  fetch_board settings board_id include_subitems w =
  (Raise e,
   {| pending := rest;
      sent := sent w ++ metadata_request board_id ::
              map (items_request settings board_id include_subitems)
                (JNull :: map page_cursor pages);
      warnings := warnings w |}).
Proof.
  intros Hscript Hmeta Hboard Hgo Hvalid Hbad.
  eapply fetch_board_aborts; eauto.
  intros items'. by rewrite Hbad.
Qed.



End FetchFacts.

(** A time-out on the second items request. *)
Lemma fetch_board_timeout_example :
  fetch_board (R := Example.runtime) Scenario.settings 7 false Failing.timeout =
  (Raise RequestException,
   {| pending := [page_response Scenario.page3];
      sent := [] ++ metadata_request 7 ::
              map (items_request Scenario.settings 7 false) [JNull; JStr "c1"];
      warnings := [] |}).
Proof.
  apply (fetch_board_fails_fast (R := Example.runtime) Scenario.settings 7 false
           Failing.timeout (data_response Scenario.metadata) Scenario.metadata
           Scenario.board_model [Scenario.page1] (Raise RequestException)
           RequestException [page_response Scenario.page3]
           [[Scenario.item "1" "i1"; Scenario.item "2" "i2"]]).
  - reflexivity.
  - reflexivity.
  - reflexivity.
  - repeat constructor.
  - repeat constructor.
  - reflexivity.
Defined.



Section PageFacts.
Context `{R : Runtime}.

(** X8. A board envelope without [items_page] ends the loop with the
    items gathered so far; an [items_page] whose [items] is missing or
    null adds no item, and its cursor alone decides whether the loop
    goes on.  Only the first envelope of [boards] is read. *)
Theorem read_page_missing_parts (o env : list (string * json))
    (others : list json) (items : list Item.t) :
  assoc "boards" o = Some (JArr (JObj env :: others)) ->
  (assoc "items_page" env = None ->
   read_page (JObj o) items = Ok (Break items)) /\
  (forall info,
   assoc "items_page" env = Some (JObj info) ->
   assoc "items" info = None \/ assoc "items" info = Some JNull ->
   read_page (JObj o) items =
   Ok (let cursor := default JNull (assoc "cursor" info) in
       if truthy cursor then Continue cursor items else Break items)).
Proof.
  intros Hboards. split.
  - intros Hpage. unfold read_page. cbn. rewrite Hboards. cbn. rewrite Hpage. cbn.
    by rewrite app_nil_r.
  - intros info Hpage Hitems. unfold read_page. cbn. rewrite Hboards. cbn.
    rewrite Hpage. cbn.
    destruct Hitems as [-> | ->]; cbn; rewrite app_nil_r;
      by destruct (truthy _).
Qed.

End PageFacts.

Lemma read_page_missing_example :
  read_page (R := Example.runtime) (JObj [("boards", JArr [JObj []])])
    [Scenario.item "1" "i1"] = Ok (Break [Scenario.item "1" "i1"]) /\
  read_page (R := Example.runtime)
    (JObj [("boards",
            JArr [JObj [("items_page",
                         JObj [("cursor", JStr "c2"); ("items", JNull)])]])])
    [Scenario.item "1" "i1"] = Ok (Continue (JStr "c2") [Scenario.item "1" "i1"]).
Proof.
  split.
  - destruct (read_page_missing_parts (R := Example.runtime)
                [("boards", JArr [JObj []])] [] [] [Scenario.item "1" "i1"] eq_refl)
      as [Hmissing _].
    apply Hmissing. reflexivity.
  - destruct (read_page_missing_parts (R := Example.runtime)
                [("boards",
                  JArr [JObj [("items_page",
                               JObj [("cursor", JStr "c2"); ("items", JNull)])]])]
                [("items_page", JObj [("cursor", JStr "c2"); ("items", JNull)])]
                [] [Scenario.item "1" "i1"] eq_refl)
      as [_ Hnull].
    apply (Hnull [("cursor", JStr "c2"); ("items", JNull)] eq_refl).
    right. reflexivity.
Defined.

(** ** Items and rows *)

(** X9. [column_value_by_id] returns the first column value of the
    item that has the id, and nothing when none has it. *)
Theorem column_value_by_id_first (item : Item.t) (column_id : string) :
  match Item.column_value_by_id item column_id with
  | Some cv =>
      ColumnValue.id cv = column_id /\
      exists before after,
        Item.column_values item = before ++ cv :: after /\
        Forall (fun c => ColumnValue.id c <> column_id) before
  | None =>
      Forall (fun c => ColumnValue.id c <> column_id) (Item.column_values item)
  end.
Proof.
  unfold Item.column_value_by_id.
  induction (Item.column_values item) as [|c cvs IH]; cbn; [constructor|].
  destruct (String.eqb_spec (ColumnValue.id c) column_id) as [Heq|Hne].
  - split; [exact Heq|]. exists [], cvs. split; [reflexivity|constructor].
  - destruct (find _ cvs) as [cv|].
    + destruct IH as (Hid & before & after & -> & Hbefore).
      split; [exact Hid|]. exists (c :: before), after.
      split; [reflexivity|]. by constructor.
    + by constructor.
Qed.

Section SheetFacts.
Context `{R : Runtime}.

(** The hint is ["date"] exactly when the value is a date. *)
Lemma render_hint column column_value v hint :
  _render_column_value column column_value = Ok (v, hint) ->
  hint = if is_date v then Some "date" else None.
Proof.
  unfold _render_column_value. destruct column_value as [cv|].
  2: { by intros [= <- <-]. }
  destruct (String.eqb _ "date").
  { destruct (_parse_date cv) as [[d|]|e]; cbn; [| |discriminate];
      by intros [= <- <-]. }
  destruct (_ || _).
  { destruct (float_of_str _) as [f|e]; cbn; [by intros [= <- <-]|].
    destruct (_ || _); [by intros [= <- <-]|discriminate]. }
  destruct (String.eqb _ "checkbox").
  { destruct (parsed_value cv) as [decoded|e]; cbn; [|discriminate].
    destruct decoded as [| | | | | |o]; try by intros [= <- <-].
    destruct (default JNull (assoc "checked" o)); by intros [= <- <-]. }
  destruct (String.eqb _ "people"); by intros [= <- <-].
Qed.

(** The loop over the board columns: one cell per column, in order, and
    the marks kept. *)
Lemma render_columns_cells item columns :
  forall row formats row' formats',
  render_columns item columns row formats = Ok (row', formats') ->
  exists cells,
    row' = row ++ cells /\
    Forall2 (fun column v =>
               exists hint,
                 _render_column_value column
                   (Item.column_value_by_id item (BoardColumn.id column)) =
                 Ok (v, hint)) columns cells /\
    (marks_dates row formats -> marks_dates row' formats').
Proof.
  induction columns as [|column columns IH]; intros row formats row' formats'.
  - cbn. intros [= <- <-]. exists []. rewrite app_nil_r. auto.
  - cbn [render_columns].
    destruct (_render_column_value column _) as [[v hint]|e] eqn:Hrender;
      [|discriminate].
    cbn [mbind PyResult_bind fst snd]. intros Hrest.
    apply IH in Hrest as (cells & -> & Hcells & Hmarks).
    exists (v :: cells). split; [by rewrite <- app_assoc|].
    split; [constructor; eauto|].
    intros Hrow. apply Hmarks. clear Hmarks IH Hcells.
    apply render_hint in Hrender. subst hint. intros i.
    destruct (decide (i = length row)) as [->|Hne].
    + rewrite lookup_app_r by lia. rewrite Nat.sub_diag. cbn.
      destruct (is_date v) eqn:Hdate; cbn.
      * rewrite lookup_insert_eq. split; eauto.
      * split.
        -- intros Hmark. apply Hrow in Hmark as (v' & Hlookup & _).
           apply lookup_lt_Some in Hlookup. lia.
        -- intros (v' & [= <-] & Hv'). congruence.
    + assert (Hsame : (if is_date v then Some "date" else None) = None \/
                      (if is_date v then Some "date" else None) = Some "date")
        by (destruct (is_date v); auto).
      assert (Hformats :
                match (if is_date v then Some "date" else None) with
                | Some format_tag =>
                    if String.eqb format_tag "" then formats
                    else <[length row := format_tag]> formats
                | None => formats
                end !! i = formats !! i).
      { destruct Hsame as [-> | ->]; cbn; [reflexivity|].
        by rewrite lookup_insert_ne. }
      rewrite Hformats, (Hrow i).
      destruct (decide (i < length row)%nat).
      * by rewrite lookup_app_l.
      * rewrite (lookup_ge_None_2 row i) by lia.
        rewrite lookup_app_r by lia.
        destruct (i - length row)%nat as [|past] eqn:Hpast; [lia|]. cbn.
        split; intros (v' & Hlookup & _); discriminate Hlookup.
Qed.

(** A row as [_build_item_row] makes it: the seven fixed cells, then one
    cell per board column, and the dates marked. *)
Lemma _build_item_row_cells item columns row formats :
  _build_item_row item columns = Ok (row, formats) ->
  exists cells,
    row = [ VStr (Item.id item); VStr (Item.name item);
            VStr (default "" (Group.title <$> Item.group item));
            VStr (str_or_empty (Item.group item ≫= Group.color));
            VStr (str_or_empty (Item.creator item ≫= Person.name));
            date_or_empty (Item.created_at item);
            date_or_empty (Item.updated_at item) ] ++ cells /\
    Forall2 (fun column v =>
               exists hint,
                 _render_column_value column
                   (Item.column_value_by_id item (BoardColumn.id column)) =
                 Ok (v, hint)) columns cells /\
    marks_dates row formats.
Proof.
  unfold _build_item_row. intros Hrow.
  apply render_columns_cells in Hrow as (cells & -> & Hcells & Hmarks).
  exists cells. split; [reflexivity|]. split; [exact Hcells|].
  apply Hmarks. clear. intros i.
  destruct (Item.created_at item) as [created|],
           (Item.updated_at item) as [updated|]; cbn.
  all: split.
  all: try (intros Hmark;
            repeat (apply lookup_insert_Some in Hmark as [[<- _]|[_ Hmark]];
                    [cbn; by eauto|]);
            by rewrite lookup_empty in Hmark).
  all: intros (v & Hlookup & Hdate).
  all: do 7 (destruct i as [|i];
             [injection Hlookup as <-; try discriminate Hdate; reflexivity|]).
  all: discriminate Hlookup.
Qed.

(** One item appended: its row, styled, and the widths refitted. *)
Lemma append_item_row columns sheet item sheet' :
  append_item columns sheet item = Ok sheet' ->
  exists values formats,
    _build_item_row item columns = Ok (values, formats) /\
    sheet' =
    {| title := title sheet;
       rows := rows sheet ++ [styled_row formats (S (max_row sheet)) values];
       freeze_panes := freeze_panes sheet;
       column_widths :=
         fit_columns 0 (styled_row formats (S (max_row sheet)) values)
           (column_widths sheet);
       auto_filter := auto_filter sheet |}.
Proof.
  unfold append_item.
  destruct (_build_item_row item columns) as [[values formats]|e]; [|discriminate].
  cbn [mbind PyResult_bind fst snd]. intros [= <-]. eauto.
Qed.

(** All items appended: one row per item, in the order of the items. *)
Lemma append_items_spec columns items :
  forall sheet sheet',
  append_items columns sheet items = Ok sheet' ->
  title sheet' = title sheet /\
  freeze_panes sheet' = freeze_panes sheet /\
  auto_filter sheet' = auto_filter sheet /\
  exists data_rows,
    rows sheet' = rows sheet ++ data_rows /\
    length data_rows = length items /\
    column_widths sheet' =
      fold_left (fun widths row => fit_columns 0 row widths) data_rows
        (column_widths sheet) /\
    forall j item,
      items !! j = Some item ->
      exists values formats,
        _build_item_row item columns = Ok (values, formats) /\
        data_rows !! j =
        Some (styled_row formats (S (max_row sheet + j)) values).
Proof.
  induction items as [|item items IH]; intros sheet sheet'.
  - cbn. intros [= <-]. repeat split. exists []. rewrite app_nil_r.
    repeat split. intros j item Hj. discriminate Hj.
  - cbn [append_items].
    destruct (append_item columns sheet item) as [sheet1|e] eqn:Hitem;
      [|discriminate].
    cbn [mbind PyResult_bind]. intros Hrest.
    apply append_item_row in Hitem as (values & formats & Hbuilt & ->).
    apply IH in Hrest as (Htitle & Hfreeze & Hfilter & data_rows & Hrows & Hlen
                          & Hwidths & Hdata).
    cbn [title freeze_panes auto_filter rows column_widths] in *.
    repeat split; try assumption.
    exists (styled_row formats (S (max_row sheet)) values :: data_rows).
    split; [by rewrite Hrows, <- app_assoc|].
    split; [cbn; lia|]. split; [exact Hwidths|].
    intros [|j] item' Hj.
    + injection Hj as <-. exists values, formats.
      by rewrite Nat.add_0_r.
    + cbn in Hj. destruct (Hdata j item' Hj) as (values' & formats' & Hbuilt' & Hrow').
      exists values', formats'. split; [exact Hbuilt'|].
      transitivity (data_rows !! j); [reflexivity|].
      rewrite Hrow'. unfold max_row. cbn [rows].
      rewrite length_app. cbn [length]. do 3 f_equal. lia.
Qed.

Lemma styled_row_values formats row_index values :
  map value (styled_row formats row_index values) = values.
Proof.
  unfold styled_row. apply list_eq. intros i.
  rewrite list_lookup_fmap, list_lookup_imap, list_lookup_fmap.
  by destruct (values !! i).
Qed.

Lemma styled_row_length formats row_index values :
  length (styled_row formats row_index values) = length values.
Proof. unfold styled_row. by rewrite length_imap, length_map. Qed.

(** The data rows of the finished sheet. *)
Lemma _populate_items_sheet_rows sheet_title board sheet :
  _populate_items_sheet sheet_title board = Ok sheet ->
  title sheet = sheet_title /\
  freeze_panes sheet = Some "A2" /\
  auto_filter sheet = Some (dimensions sheet) /\
  exists data_rows,
    rows sheet =
      map (fun h => _apply_header_style (plain_cell (VStr h)))
        (headers (Board.columns board)) :: data_rows /\
    length data_rows = length (Board.items board) /\
    column_widths sheet =
      fold_left (fun widths row => fit_columns 0 row widths) data_rows
        (header_widths 1
           (map (fun h => plain_cell (VStr h)) (headers (Board.columns board))) ∅) /\
    forall j item,
      Board.items board !! j = Some item ->
      exists values formats,
        _build_item_row item (Board.columns board) = Ok (values, formats) /\
        data_rows !! j = Some (styled_row formats (j + 2) values).
Proof.
  unfold _populate_items_sheet.
  destruct (append_items _ _ _) as [filled|e] eqn:Hitems; [|discriminate].
  cbn [mbind PyResult_bind]. intros [= <-].
  apply append_items_spec in Hitems
    as (Htitle & Hfreeze & _ & data_rows & Hrows & Hlen & Hwidths & Hdata).
  unfold with_auto_filter. cbn [title freeze_panes auto_filter rows column_widths].
  repeat split; try assumption.
  exists data_rows. cbn [items_sheet_header rows column_widths] in *.
  unfold Board.ordered_columns in *. rewrite map_map in Hrows.
  repeat split; try assumption.
  intros j item Hj. destruct (Hdata j item Hj) as (values & formats & Hbuilt & Hrow).
  exists values, formats. split; [exact Hbuilt|]. rewrite Hrow.
  unfold max_row. cbn [rows length].
  by replace (j + 2)%nat with (S (1 + j)) by lia.
Qed.

(** X10. The items sheet has one row per item below the header row, in
    the order of the items; the row of an item starts with its seven
    fixed cells and goes on with one cell per board column, in the
    order of the columns, holding what the renderer makes of the item's
    value in that column. *)
Theorem items_sheet_rows_follow_items sheet_title board sheet :
  _populate_items_sheet sheet_title board = Ok sheet ->
  length (rows sheet) = S (length (Board.items board)) /\
  forall j item,
    Board.items board !! j = Some item ->
    exists row cells,
      rows sheet !! S j = Some row /\
      map value row = fixed_cells item ++ cells /\
      rendered item (Board.columns board) cells.
Proof.
  intros Hsheet.
  apply _populate_items_sheet_rows in Hsheet
    as (_ & _ & _ & data_rows & Hrows & Hlen & _ & Hdata).
  rewrite Hrows. split; [cbn; lia|].
  intros j item Hj. destruct (Hdata j item Hj) as (values & formats & Hbuilt & Hrow).
  apply _build_item_row_cells in Hbuilt as (cells & -> & Hcells & _).
  eexists _, cells. split; [exact Hrow|].
  split; [apply styled_row_values|exact Hcells].
Qed.

(** The cells of a data row of the finished sheet. *)
Lemma data_row_cells sheet_title board sheet j row :
  _populate_items_sheet sheet_title board = Ok sheet ->
  rows sheet !! S j = Some row ->
  exists values formats,
    marks_dates values formats /\
    length values = (7 + length (Board.columns board))%nat /\
    row = styled_row formats (j + 2) values.
Proof.
  intros Hsheet Hrow.
  apply _populate_items_sheet_rows in Hsheet
    as (_ & _ & _ & data_rows & Hrows & Hlen & _ & Hdata).
  rewrite Hrows in Hrow. change (data_rows !! j = Some row) in Hrow.
  assert (is_Some (Board.items board !! j)) as [item Hitem].
  { apply lookup_lt_is_Some. rewrite <- Hlen. by eapply lookup_lt_Some. }
  destruct (Hdata j item Hitem) as (values & formats & Hbuilt & Hrow').
  exists values, formats.
  split; [by apply _build_item_row_cells in Hbuilt as (? & _ & _ & ?)|].
  split; [by eapply _build_item_row_length|congruence].
Qed.

(** X11. Every cell of a data row has the thin border and the text
    alignment, and the rows with an even row number, the first data row
    being row 2, have the alternating fill. *)
Theorem data_rows_striped sheet_title board sheet j row :
  _populate_items_sheet sheet_title board = Ok sheet ->
  rows sheet !! S j = Some row ->
  Forall (fun cell =>
            fill cell = (if Nat.even (j + 2) then ALTERNATING_FILL else NO_FILL) /\
            alignment cell = TEXT_ALIGNMENT /\
            thin_border cell = true) row.
Proof.
  intros Hsheet Hrow.
  destruct (data_row_cells _ _ _ _ _ Hsheet Hrow) as (values & formats & _ & _ & ->).
  apply Forall_lookup_2. intros i cell. unfold styled_row.
  rewrite list_lookup_imap, list_lookup_fmap.
  destruct (values !! i) as [v|]; [|discriminate]. intros [= <-]. cbn.
  by destruct (Nat.even (j + 2)).
Qed.

(** X12. In a data row the cells that hold a date, and only they, have
    the date number format. *)
Theorem date_cells_formatted sheet_title board sheet j row :
  _populate_items_sheet sheet_title board = Ok sheet ->
  rows sheet !! S j = Some row ->
  Forall (fun cell =>
            number_format cell =
            if is_date (value cell) then DATE_NUMBER_FORMAT else "General") row.
Proof.
  intros Hsheet Hrow.
  destruct (data_row_cells _ _ _ _ _ Hsheet Hrow)
    as (values & formats & Hmarks & _ & ->).
  apply Forall_lookup_2. intros i cell. unfold styled_row.
  rewrite list_lookup_imap, list_lookup_fmap.
  destruct (values !! i) as [v|] eqn:Hv; [|discriminate]. intros [= <-]. cbn.
  specialize (Hmarks i). case_bool_decide as Hmark.
  - apply Hmarks in Hmark as (v' & Hv' & Hdate).
    assert (v' = v) as -> by congruence. by rewrite Hdate.
  - destruct (is_date v) eqn:Hdate; [|reflexivity].
    exfalso. apply Hmark, Hmarks. eauto.
Qed.

Lemma widest_row_of_equal (width : nat) (table : list (list Cell)) :
  Forall (fun row => length row = width) table ->
  foldr (fun row n => Nat.max (length row) n) O table =
  match table with
  | [] => O
  | _ => width
  end.
Proof.
  induction 1 as [|row table Hrow Htable IH]; [reflexivity|].
  cbn [foldr]. rewrite IH, Hrow. destruct table; lia.
Qed.

(** X13. The first row of the items sheet holds the seven fixed
    headers and the titles of the board columns, each in the header
    style: the header fill, the header font, the header alignment and
    the thin border.  The pane is frozen below it, and the filter spans
    the header row, one row per item and all the columns. *)
Theorem items_sheet_frame sheet_title board sheet :
  _populate_items_sheet sheet_title board = Ok sheet ->
  title sheet = sheet_title /\
  rows sheet !! 0%nat =
    Some (map (fun h =>
                 {| value := VStr h; number_format := "General";
                    fill := HEADER_FILL; alignment := HEADER_ALIGNMENT;
                    header_font := true; thin_border := true |})
            (["Item ID"; "Item Name"; "Group"; "Group Color"; "Creator";
              "Created At"; "Updated At"]
             ++ map BoardColumn.title (Board.columns board))) /\
  freeze_panes sheet = Some "A2" /\
  auto_filter sheet =
    Some (S (length (Board.items board)), (7 + length (Board.columns board))%nat).
Proof.
  intros Hsheet.
  assert (Hwide : Forall (fun row =>
                            length row = (7 + length (Board.columns board))%nat)
                    (rows sheet)).
  { apply Forall_lookup_2. intros [|j] row Hrow.
    - apply _populate_items_sheet_rows in Hsheet
        as (_ & _ & _ & data_rows & Hrows & _).
      rewrite Hrows in Hrow. injection Hrow as <-.
      cbn [length]. by rewrite !length_map.
    - destruct (data_row_cells _ _ _ _ _ Hsheet Hrow)
        as (values & formats & _ & Hlen & ->).
      by rewrite styled_row_length. }
  apply _populate_items_sheet_rows in Hsheet
    as (Htitle & Hfreeze & Hfilter & data_rows & Hrows & Hlen & _).
  repeat split; try assumption.
  - by rewrite Hrows.
  - rewrite Hfilter. unfold dimensions. f_equal. f_equal.
    + rewrite Hrows. cbn. lia.
    + rewrite (widest_row_of_equal _ _ Hwide). by rewrite Hrows.
Qed.

(** The width of a column after one cell of it is measured. *)
Lemma fit_column_exact idx v widths w :
  widths !! S idx = Some w ->
  fit_column idx v widths !! S idx = Some (grown w (_calculate_display_width v)).
Proof.
  intros Hw. unfold fit_column, grown, previous_width. rewrite Hw. cbn [default].
  destruct (_ >? _); [apply lookup_insert_eq|exact Hw].
Qed.

Lemma fit_column_other idx v widths letter :
  letter <> S idx -> fit_column idx v widths !! letter = widths !! letter.
Proof.
  intros Hne. unfold fit_column.
  destruct (_ >? _); [by apply lookup_insert_ne|reflexivity].
Qed.

Lemma fit_columns_before cells :
  forall idx widths letter,
  (letter <= idx)%nat ->
  fit_columns idx cells widths !! letter = widths !! letter.
Proof.
  induction cells as [|cell cells IH]; intros idx widths letter Hle; [reflexivity|].
  cbn [fit_columns]. rewrite IH by lia. apply fit_column_other. lia.
Qed.

(** The width of a column after a row is measured: only the cell of the
    row in that column counts. *)
Lemma fit_columns_exact cells :
  forall idx widths k cell w,
  cells !! k = Some cell ->
  widths !! S (idx + k) = Some w ->
  fit_columns idx cells widths !! S (idx + k) =
  Some (grown w (_calculate_display_width (value cell))).
Proof.
  induction cells as [|c cells IH]; intros idx widths k cell w Hk Hw; [done|].
  cbn [fit_columns]. destruct k as [|k].
  - injection Hk as ->. rewrite Nat.add_0_r in *.
    rewrite fit_columns_before by lia. by apply fit_column_exact.
  - change (cells !! k = Some cell) in Hk.
    replace (idx + S k)%nat with (S idx + k)%nat in * by lia.
    apply IH; [exact Hk|]. rewrite fit_column_other by lia. exact Hw.
Qed.

Lemma fit_rows_exact k (table : list (list Cell)) :
  forall widths w,
  Forall (fun row => (k < length row)%nat) table ->
  widths !! S k = Some w ->
  fold_left (fun widths row => fit_columns 0 row widths) table widths !! S k =
  Some (fold_left grown (map (cell_width k) table) w).
Proof.
  induction table as [|row table IH]; intros widths w Hwide Hw; [exact Hw|].
  inversion Hwide as [|? ? Hrow Htable]; subst.
  cbn [fold_left map]. apply IH; [exact Htable|].
  apply lookup_lt_is_Some in Hrow as [cell Hcell].
  unfold cell_width. rewrite Hcell.
  by apply (fit_columns_exact row 0 widths k cell w).
Qed.

(** From a width between 1 and 48 on, measuring cells gives the largest
    of the width and the display widths, the latter cut at 48. *)
Lemma grown_closed_form (ds : list Z) :
  forall w, 1 <= w <= 48 ->
  fold_left grown ds w = Z.max w (Z.min (foldr Z.max 0 ds) 48).
Proof.
  induction ds as [|d ds IH]; intros w Hw; cbn [fold_left foldr]; [lia|].
  assert (Hgrown : grown w d = Z.max w (Z.min d 48)).
  { unfold grown. destruct (Z.eqb_spec w 0); [lia|].
    destruct (Z.gtb_spec d w); lia. }
  rewrite Hgrown, IH by lia. lia.
Qed.

Lemma widest_as_fold k (table : list (list Cell)) :
  widest k table = foldr Z.max 0 (map (cell_width k) table).
Proof. unfold widest. induction table as [|row table IH]; cbn; congruence. Qed.

(** Above the cap a width stays until a cell is wider, and is 48 from
    then on. *)
Lemma grown_above_cap (ds : list Z) :
  forall w, 48 < w ->
  fold_left grown ds w = if decide (foldr Z.max 0 ds <= w) then w else 48.
Proof.
  induction ds as [|d ds IH]; intros w Hw; cbn [fold_left foldr].
  - destruct (decide _); [reflexivity|lia].
  - unfold grown at 2. destruct (Z.eqb_spec w 0); [lia|].
    destruct (Z.gtb_spec d w).
    + replace (Z.min d 48) with 48 by lia.
      rewrite grown_closed_form by lia.
      destruct (decide _); lia.
    + rewrite IH by lia. repeat destruct (decide _); lia.
Qed.

(** C10, as the code has it.  When an item row is appended, and so when
    any number of them are, the width of a column is kept or set to at
    most 48; it does not decrease while it is at most 48; a width above
    48 is kept or lowered to 48.  The width the header row sets is the
    length of the header title, at least 12 and without upper bound.
    The row decides by its cell in the column: a cell whose display
    width exceeds the width sets it to that display width, cut at 48,
    and another cell leaves it.  So under a header of more than 48
    characters the finished column is as wide as the header is long
    when no cell of the column has a larger display width, and 48 wide
    when one has. *)
Theorem column_width_steps :
  (forall columns sheet item sheet' letter w,
   append_item columns sheet item = Ok sheet' ->
   column_widths sheet !! letter = Some w ->
   exists w', column_widths sheet' !! letter = Some w' /\ width_step w w') /\
  (forall columns sheet items sheet' letter w,
   append_items columns sheet items = Ok sheet' ->
   column_widths sheet !! letter = Some w ->
   exists w', column_widths sheet' !! letter = Some w' /\ width_step w w') /\
  (forall sheet_title board k h,
   headers (Board.ordered_columns board) !! k = Some h ->
   column_widths (items_sheet_header sheet_title board) !! S k =
   Some (Z.max (len h) 12)) /\
  (forall columns sheet item sheet' k w,
   append_item columns sheet item = Ok sheet' ->
   column_widths sheet !! S k = Some w ->
   0 < w ->
   (k < 7 + length columns)%nat ->
   exists row cell w',
     rows sheet' = rows sheet ++ [row] /\
     row !! k = Some cell /\
     column_widths sheet' !! S k = Some w' /\
     (_calculate_display_width (value cell) <= w -> w' = w) /\
     (w < _calculate_display_width (value cell) ->
      w' = Z.min (_calculate_display_width (value cell)) 48)) /\
  (forall sheet_title board sheet k h,
   _populate_items_sheet sheet_title board = Ok sheet ->
   headers (Board.columns board) !! k = Some h ->
   48 < len h ->
   column_widths sheet !! S k =
   Some (if decide (widest k (tail (rows sheet)) <= len h) then len h else 48)).
Proof.
  split; [|split; [|split; [|split]]].
  - intros columns sheet item sheet' letter w Hitem Hw.
    by eapply append_item_step.
  - intros columns sheet items. revert sheet.
    induction items as [|item items IH]; intros sheet sheet' letter w.
    + cbn. intros [= <-] Hw. exists w. split; [done|]. unfold width_step. lia.
    + cbn [append_items].
      destruct (append_item columns sheet item) as [sheet1|e] eqn:Hitem;
        [|discriminate].
      cbn [mbind PyResult_bind]. intros Hrest Hw.
      destruct (append_item_step _ _ _ _ letter w Hitem Hw) as (w1 & Hw1 & Hstep1).
      destruct (IH _ _ letter w1 Hrest Hw1) as (w2 & Hw2 & Hstep2).
      exists w2. split; [done|]. by eapply width_step_trans.
  - intros sheet_title board k h Hk. cbn [items_sheet_header column_widths].
    change (S k) with (1 + k)%nat.
    rewrite (header_widths_lookup _ 1 _ k (plain_cell (VStr h))); [done|].
    by rewrite list_lookup_fmap, Hk.
  - intros columns sheet item sheet' k w Hitem Hw Hpos Hk.
    apply append_item_sheet in Hitem as (row & Hrows & Hlen & Hwidths).
    destruct (lookup_lt_is_Some_2 row k) as [cell Hcell]; [lia|].
    exists row, cell, (grown w (_calculate_display_width (value cell))).
    split; [exact Hrows|]. split; [exact Hcell|].
    split; [rewrite Hwidths; by apply (fit_columns_exact row 0 _ k cell w)|].
    unfold grown. destruct (Z.eqb_spec w 0); [lia|].
    destruct (Z.gtb_spec (_calculate_display_width (value cell)) w); lia.
  - intros sheet_title board sheet k h Hsheet Hk Hlong.
    assert (Hwide : forall j row, rows sheet !! S j = Some row ->
                      (k < length row)%nat).
    { intros j row Hrow.
      destruct (data_row_cells _ _ _ _ _ Hsheet Hrow)
        as (values & formats & _ & Hvalues & ->).
      rewrite styled_row_length, Hvalues.
      apply lookup_lt_Some in Hk. unfold headers in Hk.
      rewrite length_app, length_map in Hk. exact Hk. }
    apply _populate_items_sheet_rows in Hsheet
      as (_ & _ & _ & data_rows & Hrows & _ & Hwidths & _).
    rewrite Hrows in *. cbn [tail]. rewrite Hwidths, widest_as_fold.
    assert (Hstart :
              header_widths 1
                (map (fun h => plain_cell (VStr h)) (headers (Board.columns board)))
                ∅ !! S k = Some (Z.max (len h) 12)).
    { change (S k) with (1 + k)%nat.
      rewrite (header_widths_lookup _ 1 _ k (plain_cell (VStr h))); [done|].
      by rewrite list_lookup_fmap, Hk. }
    rewrite (fit_rows_exact k data_rows _ _
               (proj2 (Forall_lookup _ _) (fun j row Hrow => Hwide j row Hrow))
               Hstart).
    f_equal. rewrite grown_above_cap by lia.
    replace (Z.max (len h) 12) with (len h) by lia. reflexivity.
Qed.

(** X14. Under a header of at most 48 characters the finished column
    is as wide as the header is long, and at least 12 wide, or as wide
    as the widest display width among its cells, cut at 48, whichever is
    larger. *)
Theorem items_sheet_width sheet_title board sheet k h :
  _populate_items_sheet sheet_title board = Ok sheet ->
  headers (Board.columns board) !! k = Some h ->
  len h <= 48 ->
  column_widths sheet !! S k =
  Some (Z.max (Z.max (len h) 12) (Z.min (widest k (tail (rows sheet))) 48)).
Proof.
  intros Hsheet Hk Hlen.
  assert (Hwide : forall j row, rows sheet !! S j = Some row ->
                    (k < length row)%nat).
  { intros j row Hrow.
    destruct (data_row_cells _ _ _ _ _ Hsheet Hrow)
      as (values & formats & _ & Hvalues & ->).
    rewrite styled_row_length, Hvalues.
    apply lookup_lt_Some in Hk. unfold headers in Hk.
    rewrite length_app, length_map in Hk. exact Hk. }
  apply _populate_items_sheet_rows in Hsheet
    as (_ & _ & _ & data_rows & Hrows & _ & Hwidths & _).
  rewrite Hrows in *. cbn [tail]. rewrite Hwidths, widest_as_fold.
  assert (Hstart :
            header_widths 1
              (map (fun h => plain_cell (VStr h)) (headers (Board.columns board)))
              ∅ !! S k = Some (Z.max (len h) 12)).
  { change (S k) with (1 + k)%nat.
    rewrite (header_widths_lookup _ 1 _ k (plain_cell (VStr h))); [done|].
    by rewrite list_lookup_fmap, Hk. }
  rewrite (fit_rows_exact k data_rows _ _ (proj2 (Forall_lookup _ _) (fun j row Hrow => Hwide j row Hrow)) Hstart).
  f_equal. apply grown_closed_form. lia.
Qed.

End SheetFacts.

(** The eighth column of the board with the long title: the header
    sets its width to 50, the item's cell of display width 62 lowers it
    to 48, and 48 is the width of the finished sheet. *)
Lemma column_width_example :
  column_widths (items_sheet_header "My/Board:Q1" Scenario.wide_board) !! 8%nat =
  Some (Z.max (len Scenario.long_title) 12) /\
  match append_item (R := Example.runtime) [Scenario.wide_column]
          (items_sheet_header "My/Board:Q1" Scenario.wide_board)
          Scenario.wide_item with
  | Ok sheet' =>
      (exists w', column_widths sheet' !! 8%nat = Some w' /\ width_step 50 w') /\
      exists row cell w',
        rows sheet' =
          rows (items_sheet_header "My/Board:Q1" Scenario.wide_board) ++ [row] /\
        row !! 7%nat = Some cell /\
        column_widths sheet' !! 8%nat = Some w' /\
        (_calculate_display_width (R := Example.runtime) (value cell) <= 50 ->
         w' = 50) /\
        (50 < _calculate_display_width (R := Example.runtime) (value cell) ->
         w' = Z.min (_calculate_display_width (R := Example.runtime) (value cell)) 48)
  | Raise _ => False
  end /\
  match _populate_items_sheet (R := Example.runtime) "My/Board:Q1"
          Scenario.wide_board with
  | Ok sheet =>
      column_widths sheet !! 8%nat =
      Some (if decide (widest (R := Example.runtime) 7 (tail (rows sheet))
                       <= len Scenario.long_title)
            then len Scenario.long_title else 48)
  | Raise _ => False
  end.
Proof.
  destruct (column_width_steps (R := Example.runtime))
    as (Hstep & _ & Hheader & Hcell & Hfinished).
  split; [|split].
  - apply (Hheader "My/Board:Q1" Scenario.wide_board 7%nat). reflexivity.
  - destruct (append_item (R := Example.runtime) [Scenario.wide_column]
                (items_sheet_header "My/Board:Q1" Scenario.wide_board)
                Scenario.wide_item) as [sheet'|e] eqn:Hitem.
    + split.
      * apply (Hstep _ _ _ _ 8%nat 50 Hitem). reflexivity.
      * apply (Hcell _ _ _ _ 7%nat 50 Hitem); [reflexivity|lia|cbn; lia].
    + vm_compute in Hitem. discriminate Hitem.
  - destruct (_populate_items_sheet (R := Example.runtime) "My/Board:Q1"
                Scenario.wide_board) as [sheet|e] eqn:Hsheet.
    + apply (Hfinished _ _ _ 7%nat Scenario.long_title Hsheet);
        [reflexivity|vm_compute; reflexivity].
    + vm_compute in Hsheet. discriminate Hsheet.
Defined.

(** C10 as stated fails: under a header of 50 characters the width of
    the column is 50, and the row with a value of 60 characters lowers
    it to 48, which is the width the finished sheet has. *)
Lemma width_drops_under_long_header :
  column_widths (items_sheet_header "My/Board:Q1" Scenario.wide_board) !! 8%nat =
  Some 50 /\
  Scenario.width_at 8
    (append_item (R := Example.runtime) [Scenario.wide_column]
       (items_sheet_header "My/Board:Q1" Scenario.wide_board)
       Scenario.wide_item) = Ok (Some 48) /\
  Scenario.width_at 8
    (_populate_items_sheet (R := Example.runtime) "My/Board:Q1"
       Scenario.wide_board) = Ok (Some 48).
Proof. repeat split; vm_compute; reflexivity. Qed.

(** The sheet of the board with a date column: the row of its first
    item. *)
Lemma items_sheet_rows_example :
  match _populate_items_sheet (R := Example.runtime) "Q1 Plan" Plan.board with
  | Ok sheet =>
      length (rows sheet) = 3%nat /\
      exists row cells,
        rows sheet !! 1%nat = Some row /\
        map value row = fixed_cells Plan.first ++ cells /\
        rendered (R := Example.runtime) Plan.first [Plan.due; Plan.notes] cells
  | Raise _ => False
  end.
Proof.
  destruct (_populate_items_sheet (R := Example.runtime) "Q1 Plan" Plan.board)
    as [sheet|e] eqn:Hsheet.
  - destruct (items_sheet_rows_follow_items (R := Example.runtime) _ _ _ Hsheet)
      as [Hlength Hrows].
    split; [exact Hlength|]. apply (Hrows 0%nat Plan.first). reflexivity.
  - vm_compute in Hsheet. discriminate Hsheet.
Defined.

(** Its second row is striped, its third is not. *)
Lemma data_rows_striped_example :
  match _populate_items_sheet (R := Example.runtime) "Q1 Plan" Plan.board with
  | Ok sheet =>
      match rows sheet !! 1%nat with
      | Some row =>
          Forall (fun cell =>
                    fill cell = ALTERNATING_FILL /\
                    alignment cell = TEXT_ALIGNMENT /\
                    thin_border cell = true) row
      | None => False
      end
  | Raise _ => False
  end.
Proof.
  destruct (_populate_items_sheet (R := Example.runtime) "Q1 Plan" Plan.board)
    as [sheet|e] eqn:Hsheet.
  - destruct (rows sheet !! 1%nat) as [row|] eqn:Hrow.
    + exact (data_rows_striped (R := Example.runtime) _ _ _ 0 _ Hsheet Hrow).
    + vm_compute in Hsheet. injection Hsheet as <-. discriminate Hrow.
  - vm_compute in Hsheet. discriminate Hsheet.
Defined.

(** The dates of its first item have the date format. *)
Lemma date_cells_formatted_example :
  match _populate_items_sheet (R := Example.runtime) "Q1 Plan" Plan.board with
  | Ok sheet =>
      match rows sheet !! 1%nat with
      | Some row =>
          Forall (fun cell =>
                    number_format cell =
                    if is_date (value cell) then DATE_NUMBER_FORMAT
                    else "General") row
      | None => False
      end
  | Raise _ => False
  end.
Proof.
  destruct (_populate_items_sheet (R := Example.runtime) "Q1 Plan" Plan.board)
    as [sheet|e] eqn:Hsheet.
  - destruct (rows sheet !! 1%nat) as [row|] eqn:Hrow.
    + exact (date_cells_formatted (R := Example.runtime) _ _ _ 0 _ Hsheet Hrow).
    + vm_compute in Hsheet. injection Hsheet as <-. discriminate Hrow.
  - vm_compute in Hsheet. discriminate Hsheet.
Defined.

(** Its frame: nine columns, three rows. *)
Lemma items_sheet_frame_example :
  match _populate_items_sheet (R := Example.runtime) "Q1 Plan" Plan.board with
  | Ok sheet =>
      title sheet = "Q1 Plan" /\
      rows sheet !! 0%nat =
        Some (map (fun h =>
                     {| value := VStr h; number_format := "General";
                        fill := HEADER_FILL; alignment := HEADER_ALIGNMENT;
                        header_font := true; thin_border := true |})
                (["Item ID"; "Item Name"; "Group"; "Group Color"; "Creator";
                  "Created At"; "Updated At"] ++ ["Due"; "Notes"])) /\
      freeze_panes sheet = Some "A2" /\
      auto_filter sheet = Some (3%nat, 9%nat)
  | Raise _ => False
  end.
Proof.
  destruct (_populate_items_sheet (R := Example.runtime) "Q1 Plan" Plan.board)
    as [sheet|e] eqn:Hsheet.
  - exact (items_sheet_frame (R := Example.runtime) _ _ _ Hsheet).
  - vm_compute in Hsheet. discriminate Hsheet.
Defined.

(** The width of its ninth column, the notes. *)
Lemma items_sheet_width_example :
  match _populate_items_sheet (R := Example.runtime) "Q1 Plan" Plan.board with
  | Ok sheet =>
      column_widths sheet !! 9%nat =
      Some (Z.max (Z.max (len "Notes") 12)
              (Z.min (widest (R := Example.runtime) 8 (tail (rows sheet))) 48))
  | Raise _ => False
  end.
Proof.
  destruct (_populate_items_sheet (R := Example.runtime) "Q1 Plan" Plan.board)
    as [sheet|e] eqn:Hsheet.
  - apply (items_sheet_width (R := Example.runtime) _ _ _ 8 "Notes" Hsheet).
    + reflexivity.
    + vm_compute. discriminate.
  - vm_compute in Hsheet. discriminate Hsheet.
Defined.

(** ** Texts *)


Lemma length_append (s1 s2 : string) :
  String.length (s1 +:+ s2) = (String.length s1 + String.length s2)%nat.
Proof.
  induction s1 as [|c s1 IH]; [reflexivity|].
  change (String c s1 +:+ s2) with (String c (s1 +:+ s2)). cbn. by rewrite IH.
Qed.

Lemma replace_scan_newline (s : string) :
  replace_scan (String "010" "") ", " 0 s = commas_for_newlines s.
Proof.
  induction s as [|c s IH]; [reflexivity|].
  cbn [replace_scan commas_for_newlines String.prefix].
  destruct (ascii_dec "010" c) as [<-|Hne].
  - replace (String.prefix "" s) with true by (by destruct s).
    cbn. by rewrite IH.
  - destruct (Ascii.eqb_spec c "010"); [congruence|]. by rewrite IH.
Qed.

Lemma append_empty_r (s : string) : s +:+ "" = s.
Proof.
  induction s as [|a s IH]; [reflexivity|].
  change (String a s +:+ "") with (String a (s +:+ "")). congruence.
Qed.

Lemma append_snoc (s : string) (ch : ascii) (t : string) :
  (s +:+ String ch "") +:+ t = s +:+ String ch t.
Proof.
  induction s as [|a s IH]; [reflexivity|].
  change ((String a s +:+ String ch "") +:+ t)
    with (String a ((s +:+ String ch "") +:+ t)).
  change (String a s +:+ String ch t) with (String a (s +:+ String ch t)).
  congruence.
Qed.

Section TextFacts.
Context `{R : Runtime}.

(** X15. For a column of type [people] every line feed of the display
    text becomes a comma and a space: the cell holds no line feed, and a
    text without line feed is the cell as it is. *)
Theorem render_people column cv :
  BoardColumn.type column = "people" ->
  let text := ColumnValue.text cv in
  _render_column_value column (Some cv) =
    Ok (VStr (commas_for_newlines text), None) /\
  Forall (fun ch => ch <> "010"%char) (chars (commas_for_newlines text)) /\
  (Forall (fun ch => ch <> "010"%char) (chars text) ->
   commas_for_newlines text = text).
Proof.
  intros Htype text. split; [|split].
  - unfold _render_column_value. rewrite Htype. cbn.
    by rewrite <- replace_scan_newline.
  - induction text as [|c s IH]; cbn; [constructor|].
    destruct (Ascii.eqb_spec c "010"); cbn; repeat constructor; try done.
  - induction text as [|c s IH]; cbn; [reflexivity|].
    intros Hno. inversion Hno as [|? ? Hc Hs]; subst.
    destruct (Ascii.eqb_spec c "010"); [congruence|]. by rewrite IH.
Qed.

(** The lines of a text are no longer than what was read of the
    current line and what is left of the text. *)
Lemma splitlines_from_short (n : nat) :
  forall line s,
  (String.length s <= n)%nat ->
  Forall (fun l => (String.length l <= String.length line + String.length s)%nat)
    (splitlines_from line s).
Proof.
  assert (Hlast : forall line bound, (String.length line <= bound)%nat ->
            Forall (fun l => (String.length l <= bound)%nat)
              match line with "" => [] | _ => [line] end).
  { intros line bound Hline. destruct line; [constructor|].
    constructor; [exact Hline|constructor]. }
  induction n as [|n IH]; intros line s Hn.
  - destruct s; [|cbn in Hn; lia]. cbn [splitlines_from]. apply Hlast. lia.
  - destruct s as [|c s']; cbn [splitlines_from]; [apply Hlast; lia|].
    cbn [String.length] in Hn |- *.
    assert (Hrest : forall t, (String.length t <= n)%nat ->
              (String.length t <= String.length s')%nat ->
              Forall (fun l => (String.length l <=
                                String.length line + S (String.length s'))%nat)
                (line :: splitlines_from "" t)).
    { intros t Ht Hts. constructor; [lia|].
      eapply Forall_impl; [apply (IH "" t Ht)|]. cbn. intros l Hl. lia. }
    destruct (is_line_boundary c).
    + destruct s' as [|c' s''].
      { constructor; [lia|constructor]. }
      destruct (_ && _); apply Hrest; cbn [String.length] in *; lia.
    + eapply Forall_impl; [apply (IH (line +:+ String c "") s'); lia|].
      cbn beta. intros l Hl. rewrite length_append in Hl. cbn [String.length] in Hl. lia.
Qed.

(** A text without line boundary is one line. *)
Lemma splitlines_from_one_line s :
  forall line,
  Forall (fun ch => is_line_boundary ch = false) (chars s) ->
  splitlines_from line s =
  match line +:+ s with
  | "" => []
  | whole => [whole]
  end.
Proof.
  induction s as [|c s IH]; intros line Hno; cbn [splitlines_from].
  - replace (line +:+ "") with line; [by destruct line|].
    clear. induction line as [|a line IH]; [reflexivity|].
    change (String a line +:+ "") with (String a (line +:+ "")). congruence.
  - inversion Hno as [|? ? Hc Hs]; subst. rewrite Hc, (IH _ Hs).
    replace ((line +:+ String c "") +:+ s) with (line +:+ String c s);
      [reflexivity|].
    clear. induction line as [|a line IH]; [reflexivity|].
    change ((String a line +:+ String c "") +:+ s)
      with (String a ((line +:+ String c "") +:+ s)).
    change (String a line +:+ String c s) with (String a (line +:+ String c s)).
    congruence.
Qed.

(** A line feed ends the line being read. *)
Lemma splitlines_from_line_feed l :
  forall line rest,
  Forall (fun ch => is_line_boundary ch = false) (chars l) ->
  splitlines_from line (l +:+ String "010" rest) =
  (line +:+ l) :: splitlines_from "" rest.
Proof.
  induction l as [|c l IH]; intros line rest Hno.
  - change ("" +:+ String "010" rest) with (String "010" rest).
    rewrite append_empty_r. cbn [splitlines_from].
    change (is_line_boundary "010") with true. cbn match.
    by destruct rest.
  - inversion Hno as [|? ? Hc Hl]; subst.
    change (String c l +:+ String "010" rest)
      with (String c (l +:+ String "010" rest)).
    cbn [splitlines_from]. rewrite Hc, (IH _ _ Hl).
    by rewrite append_snoc.
Qed.

(** The lines of a text joined from lines are as long as these. *)
Lemma splitlines_join_lines lines :
  Forall (fun line => Forall (fun ch => is_line_boundary ch = false) (chars line))
    lines ->
  foldr (fun line m => Z.max (len line) m) 0 (splitlines (join_lines lines)) =
  foldr (fun line m => Z.max (len line) m) 0 lines.
Proof.
  unfold splitlines.
  induction 1 as [|line lines Hline Hlines IH]; [reflexivity|].
  destruct lines as [|next lines].
  - cbn [join_lines]. rewrite (splitlines_from_one_line line "" Hline).
    change ("" +:+ line) with line.
    destruct line; cbn [foldr]; unfold len; cbn [String.length]; lia.
  - change (join_lines (line :: next :: lines))
      with (line +:+ String "010" (join_lines (next :: lines))).
    rewrite (splitlines_from_line_feed line "" _ Hline).
    change ("" +:+ line) with line. cbn [foldr] in *. by rewrite IH.
Qed.

(** X16. The display width of a text is two more than the length of
    its longest line.  It is two more than the length of one of the
    lines, and of no line less than that; a text without line is 2
    wide.  For lines joined by line feeds it is two more than the
    length of the longest of them.  So it is at least 2, at most two
    more than the length of the text, which is the width of a text of
    one line.  A date is 22 wide and an empty cell 0. *)
Theorem display_width_bounds :
  (forall s, 2 <= _calculate_display_width (VStr s) <= len s + 2) /\
  (forall s, Forall (fun ch => is_line_boundary ch = false) (chars s) ->
             _calculate_display_width (VStr s) = len s + 2) /\
  (forall s, Forall (fun line => len line + 2 <= _calculate_display_width (VStr s))
               (splitlines s)) /\
  (forall d, _calculate_display_width (VDate d) = 22) /\
  _calculate_display_width VNone = 0 /\
  (forall s,
     splitlines s = [] /\ _calculate_display_width (VStr s) = 2 \/
     exists line, line ∈ splitlines s /\
                  _calculate_display_width (VStr s) = len line + 2) /\
  (forall lines,
     Forall (fun line => Forall (fun ch => is_line_boundary ch = false) (chars line))
       lines ->
     _calculate_display_width (VStr (join_lines lines)) =
     foldr (fun line m => Z.max (len line) m) 0 lines + 2).
Proof.
  assert (Hmax : forall lines bound,
            Forall (fun l => (String.length l <= bound)%nat) lines ->
            0 <= foldr (fun line m => Z.max (len line) m) 0 lines <= Z.of_nat bound).
  { induction 1 as [|l lines Hl _ IH]; cbn [foldr]; unfold len in *; lia. }
  split; [|split; [|split; [|split; [|split; [|split]]]]]; try reflexivity.
  - intros s. unfold _calculate_display_width, py_str, splitlines.
    pose proof (Hmax _ _ (splitlines_from_short _ "" s (le_n _))) as Hbound.
    cbn [String.length Nat.add] in Hbound. unfold len in *. lia.
  - intros s Hno. unfold _calculate_display_width, py_str, splitlines.
    rewrite (splitlines_from_one_line s "" Hno).
    change ("" +:+ s) with s. destruct s; cbn [foldr]; unfold len; cbn [String.length]; lia.
  - intros s. unfold _calculate_display_width, py_str.
    induction (splitlines s) as [|line lines IH]; cbn [foldr]; constructor.
    + lia.
    + eapply Forall_impl; [exact IH|]. cbn beta. intros l Hl. lia.
  - intros s. unfold _calculate_display_width, py_str.
    destruct (splitlines s) as [|first lines]; [left; by split|]. right.
    assert (Hattained : forall l ls,
              exists line, line ∈ l :: ls /\
                foldr (fun line m => Z.max (len line) m) 0 (l :: ls) = len line).
    { clear. intros l ls. revert l.
      induction ls as [|l' ls IH]; intros l.
      - exists l. split; [by left|]. cbn [foldr]. unfold len. lia.
      - destruct (IH l') as (line & Hin & Hlen). cbn [foldr] in *.
        destruct (Z.le_gt_cases (len l) (len line)).
        + exists line. split; [by right|]. lia.
        + exists l. split; [by left|]. lia. }
    destruct (Hattained first lines) as (line & Hin & Hlen).
    exists line. split; [exact Hin|]. by rewrite Hlen.
  - intros lines Hlines. unfold _calculate_display_width, py_str.
    by rewrite (splitlines_join_lines lines Hlines).
Qed.

End TextFacts.

(** Two people, one per line. *)
Lemma render_people_example :
  let text := "Ada" +:+ String "010" "Grace" in
  _render_column_value (R := Example.runtime) (Scenario.column "people")
    (Some (Scenario.column_value text None)) = Ok (VStr "Ada, Grace", None) /\
  Forall (fun ch => ch <> "010"%char) (chars "Ada, Grace") /\
  (Forall (fun ch => ch <> "010"%char) (chars text) ->
   "Ada, Grace" = text).
Proof.
  exact (render_people (R := Example.runtime) (Scenario.column "people")
           (Scenario.column_value ("Ada" +:+ String "010" "Grace") None) eq_refl).
Defined.

(** A name is one line, and of two lines the longer one counts. *)
Lemma display_width_example :
  _calculate_display_width (R := Example.runtime) (VStr "Ada") = 5 /\
  _calculate_display_width (R := Example.runtime)
    (VStr ("Ada" +:+ String "010" "Lovelace")) = 10.
Proof.
  destruct (display_width_bounds (R := Example.runtime))
    as (_ & Hline & _ & _ & _ & _ & Hlines).
  split.
  - apply (Hline "Ada"). repeat constructor.
  - apply (Hlines ["Ada"; "Lovelace"]). repeat constructor.
Defined.

(** ** Titles and file names *)

Lemma re_sub_scan_nonempty pattern repl c s :
  repl <> "" -> re_sub_scan pattern repl 0 (String c s) <> "".
Proof.
  intros Hrepl. cbn [re_sub_scan]. destruct (re_match _ _); [|discriminate].
  destruct repl; [done|discriminate].
Qed.

(** X17. The title of the items sheet has between 1 and 31 characters;
    it is ["Board"] for a board without name, and what
    [_sanitize_sheet_title] makes of the name otherwise. *)
Theorem items_sheet_title_bounds (board : Board.t) :
  (1 <= String.length (items_sheet_title board) <= 31)%nat /\
  (Board.name board = "" -> items_sheet_title board = "Board") /\
  (Board.name board <> "" ->
   items_sheet_title board = _sanitize_sheet_title (Board.name board)).
Proof.
  split; [apply items_sheet_title_length|]. unfold items_sheet_title.
  split; [by intros ->|].
  intros Hname. destruct (Board.name board) as [|c name]; [done|].
  unfold _sanitize_sheet_title, re_sub.
  pose proof (re_sub_scan_nonempty sheet_title_re "_" c name ltac:(discriminate))
    as Hsub.
  destruct (re_sub_scan _ _ _ _); [done|reflexivity].
Qed.

Lemma items_sheet_title_example :
  (1 <= String.length (items_sheet_title Plan.board) <= 31)%nat /\
  items_sheet_title Plan.board = "Q1 Plan".
Proof.
  destruct (items_sheet_title_bounds Plan.board) as (Hlength & _ & Hnamed).
  split; [exact Hlength|]. apply Hnamed. discriminate.
Defined.

Section SummaryFacts.
Context `{R : Runtime}.

(** X18. The summary sheet has a [Description] row exactly when the
    board has a description that is not empty; it ends with the time of
    the export in the date format, and its filter spans its seven or
    eight rows and two columns. *)
Theorem summary_sheet_rows (board : Board.t) :
  let sheet := _populate_summary_sheet board in
  let described :=
    match Board.description board with
    | None | Some "" => None
    | Some description => Some (VStr description)
    end in
  summary_value "Description" sheet = described /\
  summary_value "Exported At" sheet = Some (VDate utc_now) /\
  (map number_format <$> last (rows sheet)) =
    Some ["General"; DATE_NUMBER_FORMAT] /\
  length (rows sheet) =
    match described with Some _ => 8%nat | None => 7%nat end /\
  auto_filter sheet = Some (length (rows sheet), 2%nat).
Proof.
  destruct board as [id name description state columns groups items].
  destruct description as [[|c description]|]; repeat split.
Qed.

End SummaryFacts.








Lemma isalnum_not_space ch : isalnum ch = true -> isspace ch = false.
Proof. destruct ch as [[] [] [] [] [] [] [] []]; vm_compute; congruence. Qed.

Lemma lstrip_without_space s :
  Forall (fun ch => isspace ch = false) (chars s) -> lstrip s = s.
Proof.
  destruct s as [|ch s]; [reflexivity|]. intros Hs.
  inversion Hs as [|? ? Hch _]; subst. cbn [lstrip]. by rewrite Hch.
Qed.

Lemma rstrip_without_space s :
  Forall (fun ch => isspace ch = false) (chars s) -> rstrip s = s.
Proof.
  induction s as [|ch s IH]; [reflexivity|]. intros Hs.
  inversion Hs as [|? ? Hch Hrest]; subst. cbn [rstrip].
  rewrite (IH Hrest), Hch. by destruct s.
Qed.

Lemma split_from_without_space s :
  forall word,
  Forall (fun ch => isspace ch = false) (chars s) ->
  split_from word s = match word +:+ s with "" => [] | _ => [word +:+ s] end.
Proof.
  induction s as [|ch s IH]; intros word Hs; cbn [split_from].
  - rewrite append_empty_r. by destruct word.
  - inversion Hs as [|? ? Hch Hrest]; subst.
    by rewrite Hch, (IH _ Hrest), append_snoc.
Qed.

(** X20. A board name that is not empty and is made of alphanumeric
    characters, hyphens and underscores only is the stem of the default
    output path as it is. *)
Theorem _default_output_path_keeps_safe_name (board_name : string) :
  board_name <> "" ->
  Forall (fun ch => isalnum ch = true \/ ch = "-"%char \/ ch = "_"%char)
    (chars board_name) ->
  _default_output_path board_name = board_name +:+ ".xlsx".
Proof.
  intros Hname Hsafe. unfold _default_output_path.
  assert (Hkept : map safe_char (list_ascii_of_string board_name) =
                  list_ascii_of_string board_name).
  { clear Hname. unfold chars in Hsafe.
    induction Hsafe as [|ch l Hch _ IH]; [reflexivity|]. cbn [map].
    rewrite IH. f_equal. unfold safe_char.
    destruct Hch as [-> |[-> | ->]]; reflexivity. }
  assert (Hnospace : Forall (fun ch => isspace ch = false) (chars board_name)).
  { eapply Forall_impl; [exact Hsafe|]. cbn beta.
    intros ch [Halnum|[-> | ->]]; [by apply isalnum_not_space|reflexivity..]. }
  rewrite Hkept, string_of_list_ascii_of_string.
  unfold strip, split.
  rewrite (lstrip_without_space _ Hnospace), (rstrip_without_space _ Hnospace).
  rewrite (split_from_without_space _ "" Hnospace).
  change ("" +:+ board_name) with board_name.
  destruct board_name as [|ch name]; [done|]. reflexivity.
Qed.

Lemma _default_output_path_example :
  _default_output_path "Q1-Plan_2024" = "Q1-Plan_2024.xlsx".
Proof.
  apply (_default_output_path_keeps_safe_name "Q1-Plan_2024").
  - discriminate.
  - unfold chars. cbn [list_ascii_of_string].
    repeat (constructor; [vm_compute; auto|]). constructor.
Defined.

(** ** The settings *)

(** X21. [Settings.from_env] takes the explicit token when it is not
    empty and the one of the environment otherwise.  Without either it
    fails with the token error, whatever the page size, so before the
    settings are validated.  With a token, a page size outside 1..1000
    is an invalid configuration, and otherwise the settings hold the
    page size given, or 500. *)
Theorem from_env_outcomes (api_token MONDAY_API_TOKEN : option string)
    (page_size_override : option Z) :
  let absent (given : option string) := given = None \/ given = Some "" in
  let size := match page_size_override with Some n => n | None => 500 end in
  let configured (token : string) :=
    if decide (1 <= size <= 1000)
    then inr (token, {| page_size := size |})
    else inl InvalidConfiguration in
  (absent api_token -> absent MONDAY_API_TOKEN ->
   from_env api_token MONDAY_API_TOKEN page_size_override = inl TokenRequired) /\
  (forall token, api_token = Some token -> token <> "" ->
   from_env api_token MONDAY_API_TOKEN page_size_override = configured token) /\
  (forall token, absent api_token -> MONDAY_API_TOKEN = Some token ->
   token <> "" ->
   from_env api_token MONDAY_API_TOKEN page_size_override = configured token).
Proof.
  intros absent size configured.
  assert (Hvalidate : forall token : string,
            match Settings_model_validate page_size_override with
            | Some settings => inr (token, settings)
            | None => inl InvalidConfiguration
            end = configured token).
  { intros token. unfold Settings_model_validate, configured.
    replace (default 500 page_size_override) with size
      by (by destruct page_size_override).
    destruct (decide (1 <= size <= 1000)) as [Hin|Hout].
    - replace ((1 <=? size) && (size <=? 1000)) with true; [reflexivity|].
      symmetry. apply andb_true_iff. split; apply Z.leb_le; lia.
    - replace ((1 <=? size) && (size <=? 1000)) with false; [reflexivity|].
      symmetry. apply andb_false_iff.
      destruct (Z.leb_spec 1 size); [right; apply Z.leb_gt; lia|by left]. }
  unfold from_env. split; [|split].
  - intros [-> | ->] [-> | ->]; reflexivity.
  - intros token -> Hne. destruct token; [congruence|]. apply Hvalidate.
  - intros token [-> | ->] -> Hne; (destruct token; [congruence|]);
      apply Hvalidate.
Qed.

(** Without a token the page size 0 is not looked at; with one it is
    refused, and 250 is taken. *)
Lemma from_env_example :
  from_env None None (Some 0) = inl TokenRequired /\
  from_env (Some "") (Some "secret") (Some 0) = inl InvalidConfiguration /\
  from_env (Some "key") (Some "secret") (Some 250) =
  inr ("key", {| page_size := 250 |}).
Proof.
  split; [|split].
  - apply (from_env_outcomes None None (Some 0)); by left.
  - apply (proj2 (proj2 (from_env_outcomes (Some "") (Some "secret") (Some 0)))
             "secret"); [by right|reflexivity|discriminate].
  - apply (proj1 (proj2 (from_env_outcomes (Some "key") (Some "secret") (Some 250)))
             "key"); [reflexivity|discriminate].
Defined.

(** ** Dates *)

Section DateFacts.
Context `{R : Runtime}.

(** X22. For a column of type [date] whose payload decodes to an
    object with a [date] member that [isoparse] reads, the cell is that
    date with the hint ["date"], whatever the display text is. *)
Theorem render_date_from_payload column cv raw o d :
  BoardColumn.type column = "date" ->
  ColumnValue.value cv = Some raw -> raw <> "" ->
  json_loads raw = Ok (JObj o) ->
  truthy (default JNull (assoc "date" o)) = true ->
  isoparse (default JNull (assoc "date" o)) = Ok d ->
  _render_column_value column (Some cv) = Ok (VDate d, Some "date").
Proof.
  intros Htype Hraw Hne Hloads Htruthy Hiso.
  apply (render_date_structured column cv o d Htype); try assumption.
  unfold parsed_value. rewrite Hraw. destruct raw; [done|]. by rewrite Hloads.
Qed.

(** X23. For a column of type [date] without payload, the display text
    that [dateutil.parser.parse] reads is the cell, as a date with the
    hint ["date"]; a display text that it rejects, or an empty one, is
    the cell as text without hint. *)
Theorem render_date_from_display_text column cv :
  BoardColumn.type column = "date" ->
  ColumnValue.value cv = None \/ ColumnValue.value cv = Some "" ->
  let text := ColumnValue.text cv in
  (forall d, text <> "" -> date_parse text = Ok d ->
   _render_column_value column (Some cv) = Ok (VDate d, Some "date")) /\
  (date_parse text = Raise ValueError \/ date_parse text = Raise TypeError ->
   _render_column_value column (Some cv) = Ok (VStr text, None)) /\
  (text = "" -> _render_column_value column (Some cv) = Ok (VStr "", None)).
Proof.
  intros Htype Hvalue text.
  assert (Hdecoded : parsed_value cv = Ok (JStr text)).
  { unfold parsed_value. by destruct Hvalue as [-> | ->]. }
  rewrite (render_date_from_text column cv (JStr text) Htype Hdecoded I).
  unfold parse_date_text. fold text.
  split; [|split].
  - intros d Hne Hparse. destruct text; [done|]. by rewrite Hparse.
  - intros Hparse. destruct text; [reflexivity|].
    by destruct Hparse as [-> | ->].
  - by intros ->.
Qed.

End DateFacts.

Lemma render_date_payload_example :
  _render_column_value (R := Example.runtime) (Scenario.column "date")
    (Some Dates.structured) = Ok (VDate (Example.midnight 2024 1 15), Some "date").
Proof.
  apply (render_date_from_payload (R := Example.runtime) (Scenario.column "date")
           Dates.structured
           (default "" (ColumnValue.value Dates.structured))
           [("date", JStr "2024-01-15")] (Example.midnight 2024 1 15)).
  - reflexivity.
  - reflexivity.
  - discriminate.
  - reflexivity.
  - reflexivity.
  - reflexivity.
Defined.

Lemma render_date_text_example :
  _render_column_value (R := Example.runtime) (Scenario.column "date")
    (Some Dates.text_only) = Ok (VDate (Example.midnight 2024 1 15), Some "date").
Proof.
  destruct (render_date_from_display_text (R := Example.runtime)
              (Scenario.column "date") Dates.text_only eq_refl (or_introl eq_refl))
    as (Hdate & _ & _).
  apply Hdate; [discriminate|reflexivity].
Defined.


(** ** The renderer on other types, and the titles of the workbook *)

Section RenderFacts.
Context `{R : Runtime}.

(** X24. For a column whose type is none of [date], [numbers],
    [numeric], [checkbox] and [people] the cell is the display text as
    it is, without hint; an absent column value is the empty string,
    without hint, whatever the type. *)
Theorem render_passthrough :
  (forall column cv,
   BoardColumn.type column <> "date" ->
   BoardColumn.type column <> "numbers" ->
   BoardColumn.type column <> "numeric" ->
   BoardColumn.type column <> "checkbox" ->
   BoardColumn.type column <> "people" ->
   _render_column_value column (Some cv) =
   Ok (VStr (ColumnValue.text cv), None)) /\
  (forall column, _render_column_value column None = Ok (VStr "", None)).
Proof.
  split; [|reflexivity].
  intros column cv Hdate Hnumbers Hnumeric Hcheckbox Hpeople.
  apply render_other_type. unfold recognized. cbn [existsb].
  repeat match goal with
         | |- context [String.eqb ?a ?b] =>
             destruct (String.eqb_spec a b); [congruence|]
         end.
  reflexivity.
Qed.

Lemma str_take_all n s : (String.length s <= n)%nat -> str_take n s = s.
Proof.
  revert s. induction n as [|n IH]; intros [|c s]; cbn; try lia; try reflexivity.
  intros Hlen. rewrite IH; [reflexivity|lia].
Qed.

Lemma has_invalid_title_char_of ch s :
  ch ∈ chars s -> ch ∈ INVALID_TITLE_CHARS -> has_invalid_title_char s = true.
Proof.
  intros Hs Hch. unfold has_invalid_title_char. apply existsb_exists.
  exists ch. split; [by apply list_elem_of_In|].
  apply existsb_exists. exists ch. split; [by apply list_elem_of_In|].
  apply Ascii.eqb_refl.
Qed.

(** X25. A board whose name has at most 31 characters, no closing
    bracket and one of the characters [\ / * ? : [] keeps its name as
    the title of the items sheet, and openpyxl refuses the title:
    [build_workbook] raises a [ValueError]. *)
Theorem build_workbook_refuses_title board ch :
  (String.length (Board.name board) <= 31)%nat ->
  Forall (fun c => c <> "]"%char) (chars (Board.name board)) ->
  ch ∈ chars (Board.name board) ->
  ch ∈ ["\"; "/"; "*"; "?"; ":"; "["]%char ->
  items_sheet_title board = Board.name board /\
  build_workbook board = Raise ValueError.
Proof.
  intros Hlen Hno Hin Hch.
  assert (Htitle : items_sheet_title board = Board.name board).
  { unfold items_sheet_title, _sanitize_sheet_title.
    rewrite (re_sub_title_without_bracket _ Hno), (str_take_all _ _ Hlen).
    destruct (Board.name board); [|reflexivity].
    by apply elem_of_nil in Hin. }
  split; [exact Htitle|].
  assert (Hrefused : set_title "Sheet" "Sheet" (Board.name board) =
                     Raise ValueError).
  { unfold set_title.
    destruct (String.eqb (Board.name board) ""); [reflexivity|].
    rewrite (has_invalid_title_char_of ch); [reflexivity|exact Hin|].
    unfold INVALID_TITLE_CHARS.
    repeat (apply elem_of_cons in Hch as [-> | Hch]; [set_solver|]).
    by apply elem_of_nil in Hch. }
  unfold build_workbook. rewrite Htitle, Hrefused. reflexivity.
Qed.

(** X26. In a workbook that is built no character of the title of the
    items sheet is one that openpyxl refuses.  The summary sheet is
    titled [Summary], and [Summary1] when the items sheet is titled
    [summary] in whatever case; the items sheet has the title computed
    from the board name, with a 1 appended when that is [sheet] in a
    case other than that of [Sheet], the title of the sheet of a new
    workbook. *)
Theorem build_workbook_titles board workbook :
  build_workbook board = Ok workbook ->
  let computed := items_sheet_title board in
  let items_title := title (items_sheet workbook) in
  Forall (fun c => c ∉ ["\"; "*"; "?"; ":"; "/"; "["; "]"]%char) (chars computed) /\
  items_title =
    (if decide (computed <> "Sheet" /\ lower computed = "sheet")
     then computed +:+ "1" else computed) /\
  title (summary_sheet workbook) =
    (if decide (lower items_title = "summary") then "Summary1" else "Summary").
Proof.
  intros Hbuilt computed. revert Hbuilt. unfold build_workbook.
  fold computed. clearbody computed.
  destruct (set_title "Sheet" "Sheet" computed) as [given|e] eqn:Hset;
    [|discriminate].
  cbn [mbind PyResult_bind].
  change (set_title "" given "Summary")
    with (Ok (avoid_duplicate_name given "Summary")).
  cbn [mbind PyResult_bind].
  destruct (_populate_items_sheet given board) as [sheet|e] eqn:Hsheet;
    [|discriminate].
  cbn [mbind PyResult_bind]. intros [= <-].
  cbn [items_sheet summary_sheet title with_title].
  apply _populate_items_sheet_rows in Hsheet as (-> & _).
  unfold set_title in Hset.
  destruct (String.eqb computed ""); [discriminate|].
  destruct (has_invalid_title_char computed) eqn:Hvalid; [discriminate|].
  assert (Hgiven : given = if String.eqb "Sheet" computed then computed
                           else avoid_duplicate_name "Sheet" computed)
    by congruence.
  clear Hset. subst given.
  split; [|split].
  - apply Forall_forall. intros c Hc Hbad.
    unfold has_invalid_title_char in Hvalid.
    apply not_true_iff_false in Hvalid. apply Hvalid.
    apply existsb_exists. exists c. split; [by apply list_elem_of_In|].
    apply existsb_exists. exists c. split; [by apply list_elem_of_In|].
    apply Ascii.eqb_refl.
  - unfold avoid_duplicate_name. change (lower "Sheet") with "sheet".
    destruct (String.eqb_spec "Sheet" computed) as [<-|Hne].
    + destruct (decide ("Sheet" <> "Sheet" /\ lower "Sheet" = "sheet"))
        as [[Hne _]|_]; [congruence|reflexivity].
    + destruct (String.eqb_spec "sheet" (lower computed)) as [Heq|Hneq];
        destruct (decide (computed <> "Sheet" /\ lower computed = "sheet"))
          as [[_ Hlow]|Hnot]; try reflexivity.
      * exfalso. apply Hnot. split; congruence.
      * congruence.
  - unfold avoid_duplicate_name at 1. change (lower "Summary") with "summary".
    destruct (String.eqb_spec
                (lower (if String.eqb "Sheet" computed then computed
                        else avoid_duplicate_name "Sheet" computed))
                "summary") as [Heq|Hneq];
      destruct (decide (lower (if String.eqb "Sheet" computed then computed
                               else avoid_duplicate_name "Sheet" computed)
                        = "summary"));
      try reflexivity; congruence.
Qed.

End RenderFacts.

(** A status column and an absent value. *)
Lemma render_passthrough_example :
  _render_column_value (R := Example.runtime) (Scenario.column "status")
    (Some (Scenario.column_value "Done" None)) = Ok (VStr "Done", None) /\
  _render_column_value (R := Example.runtime) (Scenario.column "date") None =
  Ok (VStr "", None).
Proof.
  destruct (render_passthrough (R := Example.runtime)) as [Hother Habsent].
  split; [|apply Habsent].
  apply (Hother (Scenario.column "status")); discriminate.
Defined.

(** The board named [My/Board:Q1] cannot be exported. *)
Lemma build_workbook_refuses_example :
  items_sheet_title Scenario.wide_board = "My/Board:Q1" /\
  build_workbook (R := Example.runtime) Scenario.wide_board = Raise ValueError.
Proof.
  apply (build_workbook_refuses_title (R := Example.runtime)
           Scenario.wide_board "/").
  - cbn. lia.
  - repeat (constructor; [discriminate|]). constructor.
  - vm_compute. set_solver.
  - set_solver.
Defined.

(** A board named [summary] has its summary on the sheet [Summary1]. *)
Lemma build_workbook_titles_example :
  match build_workbook (R := Example.runtime) (Titles.named "summary") with
  | Ok workbook =>
      Forall (fun c => c ∉ ["\"; "*"; "?"; ":"; "/"; "["; "]"]%char)
        (chars "summary") /\
      title (items_sheet workbook) = "summary" /\
      title (summary_sheet workbook) = "Summary1"
  | Raise _ => False
  end.
Proof.
  destruct (build_workbook (R := Example.runtime) (Titles.named "summary"))
    as [workbook|e] eqn:Hbuilt.
  - pose proof (build_workbook_titles (R := Example.runtime) _ _ Hbuilt)
      as (Hchars & Hitems & Hsummary).
    split; [exact Hchars|]. split; [exact Hitems|].
    rewrite Hsummary, Hitems. reflexivity.
  - vm_compute in Hbuilt. discriminate Hbuilt.
Defined.
